(** * GestorDocmendoza: quotes, delivery notes, inventory and clients

    A shallow embedding of the document engine of [src/App.tsx] (totals,
    numbering, stock deduction, the editor's line-item handlers, the forms
    and buttons around them, the preview scale), of the storage service it
    calls (the [localStorage] collections) and of the figures of the
    dashboard, followed by the properties of the specification and by
    further properties of the code.

    Numbers.  The TypeScript type [number] is used for two kinds of values.
    Money amounts, quantities, tax rates and stock levels are modelled as
    exact rationals ([Qc]: canonical rationals, compared with [=]); the
    rounding of IEEE doubles is outside the model, and so are NaN and the
    infinities, except where the one free-text number input of the editor
    produces them ([changeTaxRate]).  The two numbering counters are whole
    numbers held in doubles: they are integers ([Z]), the sum [nextNum + 1]
    is rounded to the nearest double ([toDouble]), and their decimal
    rendering [String(n)] is [pretty], which is what JavaScript prints for
    a whole number of magnitude below 10^21.

    Objects.  Interfaces are records.  A field that some code path tests for
    presence (a [Partial<Document>] in the editor, the object parsed from the
    stored settings) is an [option].  [JSON.stringify] followed by
    [JSON.parse] is the identity on these values, so a storage slot holds the
    parsed value directly; an absent key is [None]. *)

From Stdlib Require Import ZArith QArith Qcanon.
From stdpp Require Import base option list strings numbers pretty gmap.

Local Open Scope Z_scope.
Local Open Scope string_scope.
Local Open Scope list_scope.
Local Open Scope Qc_scope.

(** ** JavaScript primitives *)

(** A number literal of the source, as a rational. *)
Definition num (z : Z) : Qc := Q2Qc (inject_Z z).

(** Truthiness of a string that may be absent: [undefined] and [''] are
    falsy, every other string is truthy. *)
Definition truthy (o : option string) : bool :=
  match o with
  | Some s => bool_decide (s ≠ "")
  | None => false
  end.

(** [pad.repeat(k)] *)
Fixpoint repeat_string (k : nat) (pad : string) : string :=
  match k with
  | O => ""
  | S k' => pad +:+ repeat_string k' pad
  end.

(** [s.padStart(targetLength, padString)]: [s] itself when it is already
    long enough or the pad string is empty, otherwise the pad string,
    repeated and cut to the missing length, in front of [s]. *)
Definition padStart (targetLength : nat) (padString s : string) : string :=
  let missing := (targetLength - String.length s)%nat in
  if bool_decide (padString = "") then s
  else String.substring 0 missing (repeat_string missing padString) +:+ s.

(** ** Whole numbers held in doubles

    A double that holds a whole number is modelled by that integer.  Every
    integer of magnitude up to 2^53 is a double; from there on the doubles
    are 2, 4, 8, ... apart, and an addition returns the double nearest to
    the exact sum, the one with the even significand when two are equally
    near. *)

(** [Number.MAX_SAFE_INTEGER] *)
Definition MAX_SAFE_INTEGER : Z := 2 ^ 53 - 1.

(** [Number.isSafeInteger(n)], for a whole number [n] *)
Definition isSafeInteger (n : Z) : Prop := (Z.abs n ≤ MAX_SAFE_INTEGER)%Z.

(** The double nearest to the integer [z], ties to even.  (Overflow to
    Infinity, from 2^1024 on, is left out: no sum of this program reaches
    it from a finite counter.) *)
Definition toDouble (z : Z) : Z :=
  let a := Z.abs z in
  if (a <? 2 ^ 53)%Z then z
  else
    let ulp := (2 ^ (Z.log2 a - 52))%Z in
    let q := (a / ulp)%Z in
    let r := (a mod ulp)%Z in
    let q' :=
      if (2 * r <? ulp)%Z then q
      else if (ulp <? 2 * r)%Z then (q + 1)%Z
      else if Z.even q then q else (q + 1)%Z in
    (Z.sgn z * (q' * ulp))%Z.

(** ** Numbers typed into a text box *)

(** [Number(e.target.value)] for an input that is not of type [number]:
    a finite number, NaN when the text is not a numeric literal, as for
    ["16,5"], or an infinity, as for ["Infinity"] and ["-1e999"]. *)
Inductive number := Num (q : Qc) | NaN | Infinity (negative : bool).

(** [r || 0] for a number [r] that is not NaN: 0 is the only falsy one. *)
Definition or0 (r : Qc) : Qc := if bool_decide (r ≠ 0) then r else 0.

(** ** types.ts *)

Inductive DocType := presupuesto | entrega.

Inductive DocStatus := draft | final.

Inductive LogoPosition := left | center | right.

Global Instance DocType_eq_dec : EqDecision DocType.
Proof. solve_decision. Defined.

Module CompanySettings.
Record t := mk {
    name : string;
    rif : string;
    address : string;
    phone : string;
    logoUrl : string;
    email : string;
    terms : string;
    paymentConditions : string;
    nextBudgetNumber : Z;
    nextDeliveryNumber : Z;
    defaultTaxRate : Qc;
    currencySymbol : string;
    logoPosition : LogoPosition;
    primaryColor : string
  }.

  (** The object read back from storage: any subset of the fields. *)
Record partial := mkPartial {
    name' : option string;
    rif' : option string;
    address' : option string;
    phone' : option string;
    logoUrl' : option string;
    email' : option string;
    terms' : option string;
    paymentConditions' : option string;
    nextBudgetNumber' : option Z;
    nextDeliveryNumber' : option Z;
    defaultTaxRate' : option Qc;
    currencySymbol' : option string;
    logoPosition' : option LogoPosition;
    primaryColor' : option string
  }.

  (** What [JSON.stringify] writes for a complete settings object. *)
Definition stringify (s : t) : partial :=
    {| name' := Some (name s); rif' := Some (rif s);
       address' := Some (address s); phone' := Some (phone s);
       logoUrl' := Some (logoUrl s); email' := Some (email s);
       terms' := Some (terms s);
       paymentConditions' := Some (paymentConditions s);
       nextBudgetNumber' := Some (nextBudgetNumber s);
       nextDeliveryNumber' := Some (nextDeliveryNumber s);
       defaultTaxRate' := Some (defaultTaxRate s);
       currencySymbol' := Some (currencySymbol s);
       logoPosition' := Some (logoPosition s);
       primaryColor' := Some (primaryColor s) |}.

  (** [{ ...d, ...p }] *)
Definition spread (d : t) (p : partial) : t :=
    {| name := default (name d) (name' p);
       rif := default (rif d) (rif' p);
       address := default (address d) (address' p);
       phone := default (phone d) (phone' p);
       logoUrl := default (logoUrl d) (logoUrl' p);
       email := default (email d) (email' p);
       terms := default (terms d) (terms' p);
       paymentConditions := default (paymentConditions d) (paymentConditions' p);
       nextBudgetNumber := default (nextBudgetNumber d) (nextBudgetNumber' p);
       nextDeliveryNumber := default (nextDeliveryNumber d) (nextDeliveryNumber' p);
       defaultTaxRate := default (defaultTaxRate d) (defaultTaxRate' p);
       currencySymbol := default (currencySymbol d) (currencySymbol' p);
       logoPosition := default (logoPosition d) (logoPosition' p);
       primaryColor := default (primaryColor d) (primaryColor' p) |}.

  (** [{ ...s, nextBudgetNumber: n }] and [{ ...s, nextDeliveryNumber: n }] *)
Definition with_nextBudgetNumber (n : Z) (s : t) : t :=
    mk (name s) (rif s) (address s) (phone s) (logoUrl s) (email s) (terms s)
       (paymentConditions s) n (nextDeliveryNumber s) (defaultTaxRate s)
       (currencySymbol s) (logoPosition s) (primaryColor s).

Definition with_nextDeliveryNumber (n : Z) (s : t) : t :=
    mk (name s) (rif s) (address s) (phone s) (logoUrl s) (email s) (terms s)
       (paymentConditions s) (nextBudgetNumber s) n (defaultTaxRate s)
       (currencySymbol s) (logoPosition s) (primaryColor s).

  (** The fields of the interface, each with the type of its values, for
      statements that range over "every field". *)
Inductive field :=
  | f_name | f_rif | f_address | f_phone | f_logoUrl | f_email | f_terms
  | f_paymentConditions | f_nextBudgetNumber | f_nextDeliveryNumber
  | f_defaultTaxRate | f_currencySymbol | f_logoPosition | f_primaryColor.

Definition value (f : field) : Type :=
    match f with
    | f_nextBudgetNumber | f_nextDeliveryNumber => Z
    | f_defaultTaxRate => Qc
    | f_logoPosition => LogoPosition
    | _ => string
    end.

Definition get (f : field) (s : t) : value f :=
    match f with
    | f_name => name s | f_rif => rif s | f_address => address s
    | f_phone => phone s | f_logoUrl => logoUrl s | f_email => email s
    | f_terms => terms s | f_paymentConditions => paymentConditions s
    | f_nextBudgetNumber => nextBudgetNumber s
    | f_nextDeliveryNumber => nextDeliveryNumber s
    | f_defaultTaxRate => defaultTaxRate s
    | f_currencySymbol => currencySymbol s
    | f_logoPosition => logoPosition s
    | f_primaryColor => primaryColor s
    end.

Definition get' (f : field) (p : partial) : option (value f) :=
    match f with
    | f_name => name' p | f_rif => rif' p | f_address => address' p
    | f_phone => phone' p | f_logoUrl => logoUrl' p | f_email => email' p
    | f_terms => terms' p | f_paymentConditions => paymentConditions' p
    | f_nextBudgetNumber => nextBudgetNumber' p
    | f_nextDeliveryNumber => nextDeliveryNumber' p
    | f_defaultTaxRate => defaultTaxRate' p
    | f_currencySymbol => currencySymbol' p
    | f_logoPosition => logoPosition' p
    | f_primaryColor => primaryColor' p
    end.
End CompanySettings.

Module Client.
Record t := mk {
    id : string;
    name : string;
    rif : string;
    address : string;
    phone : string
  }.
End Client.

Module Product.
Record t := mk {
    id : string;
    code : string;
    description : string;
    price : Qc;
    stock : Qc;
    unit : string
  }.

  (** [p.stock = n] on an otherwise unchanged product *)
Definition with_stock (n : Qc) (p : t) : t :=
    mk (id p) (code p) (description p) (price p) n (unit p).
End Product.

Module DocItem.
Record t := mk {
    id : string;          (* product id, [''] for a custom item *)
    rowId : string;
    description : string;
    unit : string;
    quantity : Qc;
    price : Qc;
    total : Qc
  }.
End DocItem.

Module Document.
  (** The editor holds a [Partial<Document>]: [id], [number], [type],
      [clientName] and [status] may be absent there, [dueDate] is optional in
      the interface itself.  Every document the editor is opened on carries
      the remaining fields. *)
Record t := mk {
    id : option string;
    number : option string;
    type : option DocType;
    date : string;
    time : string;
    dueDate : option string;
    clientName : option string;
    clientRif : string;
    clientAddress : string;
    clientPhone : string;
    description : string;
    items : list DocItem.t;
    subtotal : Qc;
    taxRate : Qc;
    taxAmount : Qc;
    total : Qc;
    status : option DocStatus
  }.

  (** [{ ...d, number: n, status: 'final' }] *)
Definition finalized (n : option string) (d : t) : t :=
    mk (id d) n (type d) (date d) (time d) (dueDate d) (clientName d)
       (clientRif d) (clientAddress d) (clientPhone d) (description d)
       (items d) (subtotal d) (taxRate d) (taxAmount d) (total d) (Some final).

  (** [{ ...d, type: ty }] *)
Definition with_type (ty : DocType) (d : t) : t :=
    mk (id d) (number d) (Some ty) (date d) (time d) (dueDate d) (clientName d)
       (clientRif d) (clientAddress d) (clientPhone d) (description d)
       (items d) (subtotal d) (taxRate d) (taxAmount d) (total d) (status d).

  (** [{ ...d, clientName: val }] *)
Definition with_clientName (val : string) (d : t) : t :=
    mk (id d) (number d) (type d) (date d) (time d) (dueDate d) (Some val)
       (clientRif d) (clientAddress d) (clientPhone d) (description d)
       (items d) (subtotal d) (taxRate d) (taxAmount d) (total d) (status d).

  (** [{ ...d, items: ni, subtotal: s, taxAmount: x, total: tt }] *)
Definition with_items (ni : list DocItem.t) (s x tt : Qc) (d : t) : t :=
    mk (id d) (number d) (type d) (date d) (time d) (dueDate d) (clientName d)
       (clientRif d) (clientAddress d) (clientPhone d) (description d)
       ni s (taxRate d) x tt (status d).

  (** [{ ...d, taxRate: r, subtotal: s, taxAmount: x, total: tt }] *)
Definition with_taxRate (r s x tt : Qc) (d : t) : t :=
    mk (id d) (number d) (type d) (date d) (time d) (dueDate d) (clientName d)
       (clientRif d) (clientAddress d) (clientPhone d) (description d)
       (items d) s r x tt (status d).
End Document.

(** ** services/storage.ts *)

(** The four keys of [KEYS], each holding the parsed value of its JSON text;
    [None] is a key that was never written ([getItem] returns [null]). *)
Record LocalStorage := mkStorage {
  casticel_settings : option CompanySettings.partial;
  casticel_documents : option (list Document.t);
  casticel_inventory : option (list Product.t);
  casticel_clients : option (list Client.t)
}.

Definition LF : string := String (Ascii.ascii_of_nat 10) "".

Definition DEFAULT_SETTINGS : CompanySettings.t :=
  {| CompanySettings.name := "Casticel C.A.";
     CompanySettings.rif := "J-31348693-0";
     CompanySettings.address :=
       "Av. 5 de Diciembre, al lado del Banco Industrial. Acarigua 3303, Portuguesa.";
     CompanySettings.phone := "0416-6367466";
     CompanySettings.logoUrl := "https://picsum.photos/100/100";
     CompanySettings.email := "contacto@casticel.com";
     CompanySettings.terms :=
       "* Precios sujetos a cambio sin previo aviso." +:+ LF +:+
       "* Validez de la oferta: 5 días.";
     CompanySettings.paymentConditions :=
       "80% de anticipo, saldo contra valuaciones parciales.";
     CompanySettings.nextBudgetNumber := 1;
     CompanySettings.nextDeliveryNumber := 1;
     CompanySettings.defaultTaxRate := num 16;
     CompanySettings.currencySymbol := "$";
     CompanySettings.logoPosition := left;
     CompanySettings.primaryColor := "#0369a1" |}.

Section Collection.
(** The three collections are handled by the same code, up to the entry
    type: [findIndex] on the id followed by an assignment or a [push], and
    [filter] on the id. *)
Context {A K : Type} `{EqDecision K} (key : A → K).

Definition upsert (x : A) (l : list A) : list A :=
  match list_find (λ y, key y = key x) l with
  | Some (existingIndex, _) => <[existingIndex := x]> l
  | None => l ++ [x]
  end.

Definition remove (k : K) (l : list A) : list A :=
  filter (λ y, key y ≠ k) l.

(** [l.find(y => y.id === k)]: the first entry with the given id. *)
Definition findBy (k : K) (l : list A) : option A :=
  snd <$> list_find (λ y, key y = k) l.

(** [after] is [before] without the entries whose id is [k]: the
    entries with another id are all kept, unchanged and in their order;
    an id that occurs once loses exactly that entry; an id that does not
    occur loses nothing. *)
Definition removesEntriesOf (k : K) (before after : list A) : Prop :=
  (∀ x, x ∈ after ↔ x ∈ before ∧ key x ≠ k) ∧
  after `sublist_of` before ∧
  (∀ l1 e l2, before = l1 ++ e :: l2 → key e = k →
     Forall (λ y, key y ≠ k) (l1 ++ l2) → after = l1 ++ l2) ∧
  (Forall (λ y, key y ≠ k) before → after = before).
End Collection.

(** --- Settings --- *)
Definition getSettings (ls : LocalStorage) : CompanySettings.t :=
  match casticel_settings ls with
  | Some saved => CompanySettings.spread DEFAULT_SETTINGS saved
  | None => DEFAULT_SETTINGS
  end.

Definition saveSettings (settings : CompanySettings.t) (ls : LocalStorage)
  : LocalStorage :=
  mkStorage (Some (CompanySettings.stringify settings))
            (casticel_documents ls) (casticel_inventory ls) (casticel_clients ls).

(** --- Documents --- *)
Definition getDocuments (ls : LocalStorage) : list Document.t :=
  default [] (casticel_documents ls).

Definition setDocuments (docs : list Document.t) (ls : LocalStorage)
  : LocalStorage :=
  mkStorage (casticel_settings ls) (Some docs)
            (casticel_inventory ls) (casticel_clients ls).

Definition saveDocument (doc : Document.t) (ls : LocalStorage) : LocalStorage :=
  setDocuments (upsert Document.id doc (getDocuments ls)) ls.

Definition deleteDocument (id : string) (ls : LocalStorage) : LocalStorage :=
  setDocuments (remove Document.id (Some id) (getDocuments ls)) ls.

(** --- Inventory --- *)
Definition getInventory (ls : LocalStorage) : list Product.t :=
  default [] (casticel_inventory ls).

Definition setInventory (items : list Product.t) (ls : LocalStorage)
  : LocalStorage :=
  mkStorage (casticel_settings ls) (casticel_documents ls)
            (Some items) (casticel_clients ls).

Definition saveProduct (product : Product.t) (ls : LocalStorage) : LocalStorage :=
  setInventory (upsert Product.id product (getInventory ls)) ls.

Definition deleteProduct (id : string) (ls : LocalStorage) : LocalStorage :=
  setInventory (remove Product.id id (getInventory ls)) ls.

(** --- Clients --- *)
Definition getClients (ls : LocalStorage) : list Client.t :=
  default [] (casticel_clients ls).

Definition setClients (items : list Client.t) (ls : LocalStorage)
  : LocalStorage :=
  mkStorage (casticel_settings ls) (casticel_documents ls)
            (casticel_inventory ls) (Some items).

Definition saveClient (client : Client.t) (ls : LocalStorage) : LocalStorage :=
  setClients (upsert Client.id client (getClients ls)) ls.

Definition deleteClient (id : string) (ls : LocalStorage) : LocalStorage :=
  setClients (remove Client.id id (getClients ls)) ls.

(** ** App.tsx *)

(** The component state that the document engine reads and writes, together
    with the browser storage behind the storage service. *)
Record AppState := mkApp {
  settings : CompanySettings.t;
  documents : list Document.t;
  inventory : list Product.t;
  clients : list Client.t;
  currentDoc : Document.t;
  localStorage : LocalStorage
}.

Definition setCurrentDoc (d : Document.t) (s : AppState) : AppState :=
  mkApp (settings s) (documents s) (inventory s) (clients s) d (localStorage s).

(** The draft that [handleCreateNew] opens the editor on; the fresh id, the
    clock and the default tax rate are inputs. *)
Definition newDocument (uuid date time : string) (rate : Qc) : Document.t :=
    {| Document.id := Some uuid;
       Document.number := None;
       Document.type := Some presupuesto;
       Document.date := date;
       Document.time := time;
       Document.dueDate := None;
       Document.clientName := Some "";
       Document.clientRif := "";
       Document.clientAddress := "";
       Document.clientPhone := "";
       Document.description := "";
       Document.items := [];
       Document.subtotal := 0;
       Document.taxRate := rate;
       Document.taxAmount := 0;
       Document.total := 0;
       Document.status := Some draft |}.

Definition handleCreateNew (uuid date time : string) (s : AppState) : AppState :=
  setCurrentDoc
    (newDocument uuid date time (CompanySettings.defaultTaxRate (settings s))) s.

Module Totals.
Record t := mk { subtotal : Qc; taxAmount : Qc; total : Qc }.
End Totals.

Definition calculateTotals (items : list DocItem.t) (rate : Qc) : Totals.t :=
  let sub := fold_left (λ acc i, acc + DocItem.total i) items 0 in
  let tax := sub * (rate / num 100) in
  {| Totals.subtotal := sub; Totals.taxAmount := tax; Totals.total := sub + tax |}.

(** *** Saving a document *)

Definition isBudget (d : Document.t) : bool :=
  bool_decide (Document.type d = Some presupuesto).

Definition prefix (d : Document.t) : string :=
  if isBudget d then "PRE-" else "NE-".

Definition nextNum (settings : CompanySettings.t) (d : Document.t) : Z :=
  if isBudget d then CompanySettings.nextBudgetNumber settings
  else CompanySettings.nextDeliveryNumber settings.

(** [`${prefix}${String(nextNum).padStart(6, '0')}`].  [String(n)] is the
    decimal numeral of a whole number [n] of magnitude below 10^21, which
    [pretty] writes; from 10^21 on JavaScript prints an exponent
    (["1e+21"]), which this definition does not follow. *)
Definition formatNumber (prefix : string) (nextNum : Z) : string :=
  prefix +:+ padStart 6 "0" (pretty nextNum).

(** [{ ...settings, [isBudget ? 'nextBudgetNumber' : 'nextDeliveryNumber']: n }] *)
Definition withCounter (d : Document.t) (n : Z) (settings : CompanySettings.t)
  : CompanySettings.t :=
  if isBudget d then CompanySettings.with_nextBudgetNumber n settings
  else CompanySettings.with_nextDeliveryNumber n settings.

(** The body of the [forEach] over the items of a delivery note: an item
    with a product id looks its product up in [newInv] and, when found,
    takes the item's quantity off its stock. *)
Definition deductItem (newInv : list Product.t) (item : DocItem.t)
  : list Product.t :=
  if truthy (Some (DocItem.id item)) then
    match list_find (λ p, Product.id p = DocItem.id item) newInv with
    | Some (i, p) =>
        <[i := Product.with_stock (Product.stock p - DocItem.quantity item) p]> newInv
    | None => newInv
    end
  else newInv.

Definition deductStock (items : list DocItem.t) (inventory : list Product.t)
  : list Product.t :=
  fold_left deductItem items inventory.

(** [newInv.forEach(p => storage.saveProduct(p))] *)
Definition saveProducts (newInv : list Product.t) (ls : LocalStorage)
  : LocalStorage :=
  fold_left (λ ls p, saveProduct p ls) newInv ls.

(** [handleSaveDocument]: the new state and the text of the [alert]. *)
Definition handleSaveDocument (s : AppState) : AppState * string :=
  let doc := currentDoc s in
  if negb (truthy (Document.clientName doc)) then
    (s, "El cliente es obligatorio")
  else
    (* Generate number if new *)
    let '(docNumber, settings1, ls1) :=
      if negb (truthy (Document.number doc)) then
        let docNumber := formatNumber (prefix doc) (nextNum (settings s) doc) in
        (* Update settings counter *)
        let newSettings :=
          withCounter doc (toDouble (nextNum (settings s) doc + 1)) (settings s) in
        (Some docNumber, newSettings, saveSettings newSettings (localStorage s))
      else (Document.number doc, settings s, localStorage s) in
    let finalDoc := Document.finalized docNumber doc in
    let ls2 := saveDocument finalDoc ls1 in
    let documents2 := getDocuments ls2 in
    (* Inventory deduction if Delivery Note *)
    let '(inventory3, ls3) :=
      if bool_decide (Document.type finalDoc = Some entrega)
         && negb (truthy (Document.number doc)) then
        let newInv := deductStock (Document.items finalDoc) (inventory s) in
        (newInv, saveProducts newInv ls2)
      else (inventory s, ls2) in
    (mkApp settings1 documents2 inventory3 (clients s) finalDoc ls3,
     "Documento guardado con éxito").

(** *** The editor's line-item handlers

    The handlers are anonymous functions in [renderEditor]; [idx] is the
    position of the rendered row, so it is always within the item list. *)

(** [{ ...currentDoc, items: ni, ...calculateTotals(ni, currentDoc.taxRate || 0) }] *)
Definition withTotals (ni : list DocItem.t) (d : Document.t) : Document.t :=
  let totals := calculateTotals ni (or0 (Document.taxRate d)) in
  Document.with_items ni (Totals.subtotal totals) (Totals.taxAmount totals)
                      (Totals.total totals) d.

(** "Agregar": a blank row is appended, the totals are left as they are. *)
Definition addItem (rowId : string) (d : Document.t) : Document.t :=
  let newItems :=
    (Document.items d ++ [DocItem.mk "" rowId "" "und" 1 0 0])%list in
  Document.with_items newItems (Document.subtotal d) (Document.taxAmount d)
                      (Document.total d) d.

(** The row's delete button: [items.filter((_, i) => i !== idx)]. *)
Definition removeItem (idx : nat) (d : Document.t) : Document.t :=
  withTotals (delete idx (Document.items d)) d.

(** The description input: a description that names a product of the
    inventory links the row to it and takes its price and unit. *)
Definition changeDescription (inventory : list Product.t) (idx : nat)
    (val : string) (d : Document.t) : Document.t :=
  let ni :=
    match list_find (λ p, Product.description p = val) inventory with
    | Some (_, p) =>
        alter (λ it, DocItem.mk (Product.id p) (DocItem.rowId it)
                       (Product.description p) (Product.unit p)
                       (DocItem.quantity it) (Product.price p)
                       (Product.price p * DocItem.quantity it))
              idx (Document.items d)
    | None =>
        alter (λ it, DocItem.mk (DocItem.id it) (DocItem.rowId it) val
                       (DocItem.unit it) (DocItem.quantity it)
                       (DocItem.price it) (DocItem.total it))
              idx (Document.items d)
    end in
  withTotals ni d.

(** The quantity input. *)
Definition changeQuantity (idx : nat) (q : Qc) (d : Document.t) : Document.t :=
  withTotals
    (alter (λ it, DocItem.mk (DocItem.id it) (DocItem.rowId it)
                    (DocItem.description it) (DocItem.unit it) q
                    (DocItem.price it) (q * DocItem.price it))
           idx (Document.items d)) d.

(** The price input. *)
Definition changePrice (idx : nat) (p : Qc) (d : Document.t) : Document.t :=
  withTotals
    (alter (λ it, DocItem.mk (DocItem.id it) (DocItem.rowId it)
                    (DocItem.description it) (DocItem.unit it)
                    (DocItem.quantity it) p (p * DocItem.quantity it))
           idx (Document.items d)) d.

(** The editor's document after the tax-rate input.  The tax fields of
    [Document.t] hold finite numbers, so a document in which they do not is
    kept apart: [NotFinite r d] is the document [d] with [r], NaN or an
    infinity, in [taxRate], and with NaN or an infinity in [taxAmount] and
    in [total]. *)
Inductive TaxEdit :=
  | Rated (d : Document.t)
  | NotFinite (r : number) (d : Document.t).

(** The tax-rate input, a plain text box:
    [{ ...currentDoc, taxRate: r, ...calculateTotals(currentDoc.items || [], r) }]
    with [r = Number(e.target.value)].  When [r] is NaN or an infinity the
    subtotal is still the sum of the rows, while [sub * (r / 100)] and
    [sub + tax] are NaN or an infinity. *)
Definition changeTaxRate (r : number) (d : Document.t) : TaxEdit :=
  match r with
  | Num r =>
      let totals := calculateTotals (Document.items d) r in
      Rated (Document.with_taxRate r (Totals.subtotal totals)
               (Totals.taxAmount totals) (Totals.total totals) d)
  | _ =>
      let sub := fold_left (λ acc i, acc + DocItem.total i) (Document.items d) 0 in
      NotFinite r (Document.with_items (Document.items d) sub
                     (Document.taxAmount d) (Document.total d) d)
  end.

(** The "new product" dialog, once the product is stored: every row with
    the product's description is linked to it and repriced. *)
Definition linkNewProduct (newProd : Product.t) (d : Document.t) : Document.t :=
  let newItems :=
    (λ item,
       if bool_decide (DocItem.description item = Product.description newProd)
       then DocItem.mk (Product.id newProd) (DocItem.rowId item)
              (DocItem.description item) (Product.unit newProd)
              (DocItem.quantity item) (Product.price newProd)
              (DocItem.quantity item * Product.price newProd)
       else item) <$> Document.items d in
  withTotals newItems d.

(** ** Notions used in the statements *)

(** The line total of an item as the data model defines it. *)
Definition lineTotal (i : DocItem.t) : Qc :=
  DocItem.quantity i * DocItem.price i.

(** The stored line total of an item agrees with its quantity and price. *)
Definition consistent (i : DocItem.t) : Prop :=
  DocItem.total i = lineTotal i.

(** Sum of a rational-valued measure over a list. *)
Definition sumOf {A} (f : A → Qc) (l : list A) : Qc :=
  foldr (λ x acc, f x + acc) 0 l.

(** The quantity an item takes off the product with id [pid]: its quantity
    when it is linked to that product, nothing otherwise. *)
Definition demand (pid : string) (i : DocItem.t) : Qc :=
  if bool_decide (DocItem.id i ≠ "" ∧ DocItem.id i = pid)
  then DocItem.quantity i else 0.

(** The totals stored in a document are those of its items: every stored
    line total is quantity times price, and subtotal, tax and total follow
    from them and from the document's tax rate. *)
Definition totalsAgree (d : Document.t) : Prop :=
  Forall consistent (Document.items d) ∧
  Document.subtotal d = sumOf lineTotal (Document.items d) ∧
  Document.taxAmount d = Document.subtotal d * Document.taxRate d / num 100 ∧
  Document.total d = Document.subtotal d + Document.taxAmount d.

(** ** Concrete documents and states used in the examples *)

Definition emptyStorage : LocalStorage := mkStorage None None None None.

Definition quoteDraft : Document.t :=
  newDocument "doc-1" "01/02/2025" "09:30:00" (num 16).

(** Two rows entered through the editor: 2 at 10 and 1 at 5. *)
Definition twoLines : Document.t :=
  changePrice 1 (num 5) (changeQuantity 1 (num 1) (addItem "row-2"
    (changePrice 0 (num 10) (changeQuantity 0 (num 2) (addItem "row-1"
      quoteDraft))))).

(** An inventory of two products, stored and loaded. *)
Definition cable : Product.t :=
  Product.mk "p-1" "CAB-01" "Cable 2x12" (num 10) (num 5) "m".

Definition lamp : Product.t :=
  Product.mk "p-2" "LAM-01" "Lampara LED" (num 5) (num 1) "und".

Definition stockedStorage : LocalStorage :=
  saveProduct lamp (saveProduct cable emptyStorage).

(** The component once its collections are loaded from [ls], with the editor
    open on [doc]. *)
Definition loaded (doc : Document.t) (ls : LocalStorage) : AppState :=
  mkApp (getSettings ls) (getDocuments ls) (getInventory ls) (getClients ls)
        doc ls.

(** The editor right after "Nuevo Doc": no client name yet, no number. *)
Definition freshState : AppState := loaded quoteDraft stockedStorage.

(** A quote for a named client, ready to be saved. *)
Definition quoteState : AppState :=
  setCurrentDoc (Document.with_clientName "Ana Perez" twoLines) freshState.

(** A second quote, opened after the first one. *)
Definition secondQuote : Document.t :=
  Document.with_clientName "Luis Mora"
    (newDocument "doc-2" "02/02/2025" "10:00:00" (num 16)).

(** A delivery note with one row linked to the cable, quantity 3. *)
Definition deliveryNote : Document.t :=
  changeQuantity 0 (num 3)
    (changeDescription (inventory freshState) 0 "Cable 2x12"
       (addItem "row-1"
          (Document.with_type entrega
             (Document.with_clientName "Ana Perez" quoteDraft)))).

Definition deliveryState : AppState := setCurrentDoc deliveryNote freshState.

(** A delivery note whose single row asks for 3 lamps while 1 is in stock. *)
Definition overdrawn : DocItem.t :=
  DocItem.mk "p-2" "row-1" "Lampara LED" "und" (num 3) (num 5) (num 15).

(** A client directory with two entries. *)
Definition clientAna : Client.t :=
  Client.mk "c-1" "Ana Perez" "V-11222333" "Acarigua" "0414-5550001".

Definition clientLuis : Client.t :=
  Client.mk "c-2" "Luis Mora" "V-22333444" "Araure" "0424-5550002".

Definition twoClients : LocalStorage :=
  saveClient clientLuis (saveClient clientAna emptyStorage).

(** A stored settings object that only carries a tax rate and a quote
    counter. *)
Definition sparseSettings : CompanySettings.partial :=
  CompanySettings.mkPartial None None None None None None None None
    (Some 41%Z) None (Some (num 8)) None None None.

(** ** App.tsx: the remaining handlers *)

(** *** Preview scale *)

Definition Math_min (a b : Qc) : Qc := if decide (a ≤ b) then a else b.
Definition Math_max (a b : Qc) : Qc := if decide (a ≤ b) then b else a.

(** 0.3, 0.1 and 1.5 of the source *)
Definition minScale : Qc := Q2Qc (3 # 10).
Definition zoomStep : Qc := Q2Qc (1 # 10).
Definition maxScale : Qc := Q2Qc (3 # 2).

(** [handleResize]: the scale that fits a 794px page, with 40px of padding,
    into a window of the given width, clamped to [0.3, 1]. *)
Definition handleResize (width : Qc) : Qc :=
  let docWidth := num 794 in
  let padding := num 40 in
  let scale := (width - padding) / docWidth in
  Math_min (Math_max scale minScale) 1.

Definition handleZoomIn (p : Qc) : Qc := Math_min (p + zoomStep) maxScale.
Definition handleZoomOut (p : Qc) : Qc := Math_max (p - zoomStep) minScale.

(** *** Settings: the counter inputs *)

(** "Próx. Presupuesto" and "Próx. Entrega", inputs of type [number]:
    [{ ...settings, nextBudgetNumber: Number(e.target.value) }], where [n]
    is what [Number] returns, a whole number. *)
Definition changeNextBudgetNumber (n : Z) (s : AppState) : AppState :=
  mkApp (CompanySettings.with_nextBudgetNumber n (settings s)) (documents s)
        (inventory s) (clients s) (currentDoc s) (localStorage s).

Definition changeNextDeliveryNumber (n : Z) (s : AppState) : AppState :=
  mkApp (CompanySettings.with_nextDeliveryNumber n (settings s)) (documents s)
        (inventory s) (clients s) (currentDoc s) (localStorage s).

(** *** History: edit and copy *)

(** "Copiar": [{ ...doc, id: crypto.randomUUID(), number: '', date: today }] *)
Definition copyOf (uuid today : string) (doc : Document.t) : Document.t :=
  Document.mk (Some uuid) (Some "") (Document.type doc) today
    (Document.time doc) (Document.dueDate doc) (Document.clientName doc)
    (Document.clientRif doc) (Document.clientAddress doc)
    (Document.clientPhone doc) (Document.description doc)
    (Document.items doc) (Document.subtotal doc) (Document.taxRate doc)
    (Document.taxAmount doc) (Document.total doc) (Document.status doc).

Definition copyDocument (uuid today : string) (doc : Document.t) (s : AppState)
  : AppState :=
  setCurrentDoc (copyOf uuid today doc) s.

(** "Eliminar" in the history, once confirmed. *)
Definition removeDocument (id : string) (s : AppState) : AppState :=
  let ls := deleteDocument id (localStorage s) in
  mkApp (settings s) (getDocuments ls) (inventory s) (clients s)
        (currentDoc s) ls.

(** *** The client name input *)

(** A name that is the name of a client of the directory fills in the
    client's data; any other text only replaces the name. *)
Definition changeClientName (clients : list Client.t) (val : string)
    (d : Document.t) : Document.t :=
  match list_find (λ c, Client.name c = val) clients with
  | Some (_, c) =>
      Document.mk (Document.id d) (Document.number d) (Document.type d)
        (Document.date d) (Document.time d) (Document.dueDate d)
        (Some (Client.name c)) (Client.rif c) (Client.address c)
        (Client.phone c) (Document.description d) (Document.items d)
        (Document.subtotal d) (Document.taxRate d) (Document.taxAmount d)
        (Document.total d) (Document.status d)
  | None => Document.with_clientName val d
  end.

(** *** Inventory and client forms *)

(** The product form: [{ ...editingProduct, id: editingProduct.id || uuid }]
    is stored and the inventory is read back. *)
Definition submitProduct (uuid : string) (editingProduct : Product.t)
    (s : AppState) : AppState :=
  let prod :=
    Product.mk
      (if truthy (Some (Product.id editingProduct))
       then Product.id editingProduct else uuid)
      (Product.code editingProduct) (Product.description editingProduct)
      (Product.price editingProduct) (Product.stock editingProduct)
      (Product.unit editingProduct) in
  let ls := saveProduct prod (localStorage s) in
  mkApp (settings s) (documents s) (getInventory ls) (clients s)
        (currentDoc s) ls.

(** The product's delete button, once confirmed. *)
Definition removeProduct (id : string) (s : AppState) : AppState :=
  let ls := deleteProduct id (localStorage s) in
  mkApp (settings s) (documents s) (getInventory ls) (clients s)
        (currentDoc s) ls.

(** The client form. *)
Definition submitClient (uuid : string) (editingClient : Client.t)
    (s : AppState) : AppState :=
  let c :=
    Client.mk
      (if truthy (Some (Client.id editingClient))
       then Client.id editingClient else uuid)
      (Client.name editingClient) (Client.rif editingClient)
      (Client.address editingClient) (Client.phone editingClient) in
  let ls := saveClient c (localStorage s) in
  mkApp (settings s) (documents s) (inventory s) (getClients ls)
        (currentDoc s) ls.


(** ** components/Dashboard.tsx *)

Module Stats.
Record t := mk {
  totalSales : Qc;
  budgetCount : nat;
  deliveryCount : nat;
  lowStock : nat
}.
End Stats.

Definition stats (documents : list Document.t) (inventory : list Product.t)
  : Stats.t :=
  {| Stats.totalSales :=
       fold_left (λ acc doc, acc + Document.total doc) documents 0;
     Stats.budgetCount :=
       length (filter (λ d, Document.type d = Some presupuesto) documents);
     Stats.deliveryCount :=
       length (filter (λ d, Document.type d = Some entrega) documents);
     Stats.lowStock :=
       length (filter (λ p, Product.stock p < num 5) inventory) |}.

Module MonthRow.
Record t := mk {
  name : string;
  presupuestos : Qc;
  entregas : Qc
}.

Definition addPresupuesto (x : Qc) (r : t) : t :=
  mk (name r) (presupuestos r + x) (entregas r).

Definition addEntrega (x : Qc) (r : t) : t :=
  mk (name r) (presupuestos r) (entregas r + x).
End MonthRow.

(** [doc.date.substring(3)] *)
Definition month (doc : Document.t) : string :=
  String.substring 3 (String.length (Document.date doc) - 3) (Document.date doc).

(** The names every object literal inherits from [Object.prototype].  Under
    each of them [acc[month]] finds a function, or the prototype itself for
    ["__proto__"]: a truthy value that is no row of the chart. *)
Definition Object_prototype : list string :=
  [ "constructor"; "hasOwnProperty"; "isPrototypeOf"; "propertyIsEnumerable";
    "toLocaleString"; "toString"; "valueOf"; "__proto__";
    "__defineGetter__"; "__defineSetter__"; "__lookupGetter__";
    "__lookupSetter__" ].

(** One step of the [reduce] that groups the documents by month.  The
    accumulator object is the finite map of its own properties, from month
    to row.  [if (!acc[month])] makes a row unless the object has one or
    inherits something under that name; [acc[month].presupuestos += ...]
    then adds to the row, or, for an inherited name, writes on the inherited
    object and leaves the rows alone ([alter] does nothing where there is no
    row). *)
Definition groupStep (acc : gmap string MonthRow.t) (doc : Document.t)
  : gmap string MonthRow.t :=
  let acc1 :=
    match acc !! month doc with
    | Some _ => acc
    | None =>
        if bool_decide (month doc ∈ Object_prototype) then acc
        else <[month doc := MonthRow.mk (month doc) 0 0]> acc
    end in
  if bool_decide (Document.type doc = Some presupuesto)
  then alter (MonthRow.addPresupuesto (Document.total doc)) (month doc) acc1
  else alter (MonthRow.addEntrega (Document.total doc)) (month doc) acc1.

Definition grouped (documents : list Document.t) : gmap string MonthRow.t :=
  fold_left groupStep documents ∅.

(** What the padding relies on: a rendered integer is not empty and has no
    leading zero. *)
Definition plainNumeral (s : string) : Prop :=
  s ≠ "" ∧ ∀ rest, s = "0" +:+ rest → rest = "".

(** A working session on documents: each document of the list is opened in
    the editor and saved, one after the other; the numbers the documents
    carry after their save are collected in order. *)
Fixpoint finalizeAll (docs : list Document.t) (s : AppState)
  : list (option string) * AppState :=
  match docs with
  | [] => ([], s)
  | d :: docs =>
      let s1 := (handleSaveDocument (setCurrentDoc d s)).1 in
      let '(numbers, s2) := finalizeAll docs s1 in
      (Document.number (currentDoc s1) :: numbers, s2)
  end.

(** Both counters can be advanced [k] times without leaving the safe
    integers. *)
Definition countersHaveRoom (k : nat) (settings : CompanySettings.t) : Prop :=
  isSafeInteger (CompanySettings.nextBudgetNumber settings) ∧
  isSafeInteger (CompanySettings.nextBudgetNumber settings + Z.of_nat k) ∧
  isSafeInteger (CompanySettings.nextDeliveryNumber settings) ∧
  isSafeInteger (CompanySettings.nextDeliveryNumber settings + Z.of_nat k).

(** A number made from a counter value that the settings have not reached
    yet, for the type of some document. *)
Definition notYetIssued (settings : CompanySettings.t) (x : option string) : Prop :=
  ∃ d n, x = Some (formatNumber (prefix d) n) ∧ (nextNum settings d ≤ n)%Z.

(** ** More concrete states *)


(** The state after the first quote is saved. *)
Definition savedQuoteState : AppState := (handleSaveDocument quoteState).1.

(** The quote as it is stored. *)
Definition storedQuote : Document.t := currentDoc savedQuoteState.

(** The first quote about to be saved, after 9007199254740992 (2^53) was
    typed into "Próx. Presupuesto". *)
Definition atLimit : AppState := changeNextBudgetNumber (2 ^ 53) quoteState.

(** ** Rational arithmetic *)

(** Closed equations and disequations between rationals are decided on the
    underlying fractions. *)
Ltac qc_compute := apply Qc_is_canon; vm_compute; reflexivity.
Ltac qc_discriminate :=
  let H := fresh in
  intros H; apply (f_equal this) in H; vm_compute in H; discriminate H.

Lemma or0_id r : or0 r = r.
Proof. unfold or0. by case_bool_decide as H. Qed.

(** ** Whole numbers held in doubles *)

Lemma isSafeInteger_bounds n :
  isSafeInteger n ↔ (-9007199254740991 ≤ n ≤ 9007199254740991)%Z.
Proof.
  unfold isSafeInteger. change MAX_SAFE_INTEGER with 9007199254740991%Z. lia.
Qed.

(** Up to 2^53 every whole number is a double. *)
Lemma toDouble_exact z : (Z.abs z ≤ 2 ^ 53)%Z → toDouble z = z.
Proof.
  intros Hz. unfold toDouble. destruct (Z.ltb_spec (Z.abs z) (2 ^ 53)); [done|].
  change (2 ^ 53)%Z with 9007199254740992%Z in *.
  assert (z = 9007199254740992 ∨ z = -9007199254740992)%Z as [-> | ->] by lia;
    by vm_compute.
Qed.

(** Adding 1 to a safe integer is exact. *)
Lemma toDouble_succ n : isSafeInteger n → toDouble (n + 1) = (n + 1)%Z.
Proof.
  intros Hn%isSafeInteger_bounds. apply toDouble_exact.
  change (2 ^ 53)%Z with 9007199254740992%Z. lia.
Qed.

(** From 2^53 on it is not: the sum falls between two doubles. *)
Example toDouble_limit :
  toDouble (2 ^ 53 + 1) = (2 ^ 53)%Z ∧
  toDouble (2 ^ 53 + 2 + 1) = (2 ^ 53 + 4)%Z ∧
  toDouble (2 ^ 54 + 1) = (2 ^ 54)%Z.
Proof. by vm_compute. Qed.

(** ** Sums *)

Lemma fold_left_sumOf {A} (f : A → Qc) (l : list A) (a : Qc) :
  fold_left (λ acc i, acc + f i) l a = a + sumOf f l.
Proof.
  revert a. induction l as [|x l IH]; intros a; simpl.
  - ring.
  - rewrite IH. ring.
Qed.

Lemma sumOf_app {A} (f : A → Qc) (l1 l2 : list A) :
  sumOf f (l1 ++ l2) = sumOf f l1 + sumOf f l2.
Proof.
  induction l1 as [|x l1 IH]; simpl.
  - ring.
  - rewrite IH. ring.
Qed.

Lemma sumOf_ext_Forall {A} (f g : A → Qc) (l : list A) :
  Forall (λ x, f x = g x) l → sumOf f l = sumOf g l.
Proof.
  induction 1 as [|x l Hx _ IH]; simpl; [done|]. by rewrite Hx, IH.
Qed.

(** ** Totals *)

Lemma calculateTotals_subtotal_stored items rate :
  Totals.subtotal (calculateTotals items rate) = sumOf DocItem.total items.
Proof.
  unfold calculateTotals; simpl. rewrite fold_left_sumOf. ring.
Qed.

Lemma sumOf_consistent items :
  Forall consistent items → sumOf DocItem.total items = sumOf lineTotal items.
Proof. apply sumOf_ext_Forall. Qed.

(** *** The editor keeps stored totals in step with quantities and prices *)

Lemma withTotals_agree ni d :
  Forall consistent ni → totalsAgree (withTotals ni d).
Proof.
  intros Hni. unfold totalsAgree, withTotals. rewrite or0_id; simpl.
  split_and!; [done| | |done].
  - rewrite fold_left_sumOf, sumOf_consistent by done. ring.
  - unfold Qcdiv. ring.
Qed.

Lemma newDocument_agree uuid date time rate :
  totalsAgree (newDocument uuid date time rate).
Proof.
  unfold totalsAgree; simpl. split_and!; [constructor|done| |ring].
  unfold Qcdiv. ring.
Qed.

Lemma addItem_agree rowId d : totalsAgree d → totalsAgree (addItem rowId d).
Proof.
  intros (Hit & Hsub & Htax & Htot). unfold totalsAgree, addItem; simpl.
  split_and!; [| |done..].
  - apply Forall_app; split; [done|].
    constructor; [|constructor]. unfold consistent, lineTotal.
    cbn [DocItem.total DocItem.quantity DocItem.price]. ring.
  - rewrite sumOf_app, <- Hsub. unfold sumOf, lineTotal.
    cbn [foldr DocItem.quantity DocItem.price]. ring.
Qed.

Lemma removeItem_agree idx d : totalsAgree d → totalsAgree (removeItem idx d).
Proof. intros (Hit & _). apply withTotals_agree. by apply Forall_delete. Qed.

Lemma changeQuantity_agree idx q d :
  totalsAgree d → totalsAgree (changeQuantity idx q d).
Proof.
  intros (Hit & _). apply withTotals_agree, Forall_alter; [done|].
  intros it _ _. unfold consistent, lineTotal; simpl. ring.
Qed.

Lemma changePrice_agree idx p d :
  totalsAgree d → totalsAgree (changePrice idx p d).
Proof.
  intros (Hit & _). apply withTotals_agree, Forall_alter; [done|].
  intros it _ _. unfold consistent, lineTotal; simpl. ring.
Qed.

Lemma changeDescription_agree inv idx val d :
  totalsAgree d → totalsAgree (changeDescription inv idx val d).
Proof.
  intros (Hit & _). unfold changeDescription. apply withTotals_agree.
  destruct (list_find _ inv) as [[? p]|]; (apply Forall_alter; [done|]);
    intros it _; unfold consistent, lineTotal; simpl; [intros _; ring|done].
Qed.

Lemma changeTaxRate_agree r d :
  totalsAgree d → ∃ d', changeTaxRate (Num r) d = Rated d' ∧ totalsAgree d'.
Proof.
  intros (Hit & _). eexists; split; [reflexivity|].
  unfold totalsAgree; simpl. split_and!; [done| | |done].
  - rewrite fold_left_sumOf, sumOf_consistent by done. ring.
  - unfold Qcdiv. ring.
Qed.

Lemma linkNewProduct_agree newProd d :
  totalsAgree d → totalsAgree (linkNewProduct newProd d).
Proof.
  intros (Hit & _). apply withTotals_agree, Forall_fmap.
  eapply Forall_impl; [exact Hit|]. intros it Hc; simpl.
  case_bool_decide; [|done]. unfold consistent, lineTotal; simpl. ring.
Qed.

Lemma twoLines_items :
  (λ i, (DocItem.quantity i, DocItem.price i)) <$> Document.items twoLines
  = [(num 2, num 10); (num 1, num 5)].
Proof. reflexivity. Qed.

Lemma twoLines_agree : totalsAgree twoLines.
Proof.
  unfold twoLines, quoteDraft.
  repeat first [apply changePrice_agree | apply changeQuantity_agree
               | apply addItem_agree | apply newDocument_agree].
Qed.

(** C1: for every list of line items, empty or not, and every tax rate, the
    subtotal returned by [calculateTotals] is the sum over the items of
    quantity times unit price.  A line item is an item whose line total is
    its quantity times its unit price, as the data model defines it and as
    every handler of the editor that writes a row stores it
    ([addItem_agree], [changeQuantity_agree], [changePrice_agree],
    [changeDescription_agree], [linkNewProduct_agree]); the function itself
    adds up the stored line totals. *)
Theorem calculateTotals_subtotal items rate :
  Forall consistent items →
  Totals.subtotal (calculateTotals items rate) = sumOf lineTotal items.
Proof.
  intros Hit. rewrite calculateTotals_subtotal_stored. by apply sumOf_consistent.
Qed.

Lemma calculateTotals_subtotal_witness :
  Forall consistent (Document.items twoLines) ∧
  Totals.subtotal (calculateTotals (Document.items twoLines) (num 16))
    = sumOf lineTotal (Document.items twoLines).
Proof.
  assert (Hit : Forall consistent (Document.items twoLines)).
  { repeat constructor; qc_compute. }
  split; [exact Hit|]. exact (calculateTotals_subtotal _ (num 16) Hit).
Defined.

(** C2: for every list of line items and every rate (in particular every
    rate that is at least 0), [calculateTotals] returns
    taxAmount = subtotal * rate / 100 and total = subtotal + taxAmount; for
    the rows 2 at 10 and 1 at 5 with rate 16 it returns subtotal 25,
    taxAmount 4 and total 29. *)
Theorem calculateTotals_tax_total :
  (∀ items rate,
     Totals.taxAmount (calculateTotals items rate)
       = Totals.subtotal (calculateTotals items rate) * rate / num 100 ∧
     Totals.total (calculateTotals items rate)
       = Totals.subtotal (calculateTotals items rate)
         + Totals.taxAmount (calculateTotals items rate)) ∧
  (λ i, (DocItem.quantity i, DocItem.price i)) <$> Document.items twoLines
    = [(num 2, num 10); (num 1, num 5)] ∧
  calculateTotals (Document.items twoLines) (num 16)
    = Totals.mk (num 25) (num 4) (num 29).
Proof.
  split; [|split].
  - intros items rate. unfold calculateTotals; simpl. split; [|done].
    unfold Qcdiv. ring.
  - reflexivity.
  - unfold calculateTotals. f_equal; qc_compute.
Qed.

(** ** Collections keyed by id *)

Section CollectionFacts.
Context {A K : Type} `{EqDecision K} (key : A → K).
Implicit Types (x y : A) (k : K) (l : list A).

Lemma upsert_cons x y l :
  upsert key x (y :: l)
  = if decide (key y = key x) then x :: l else y :: upsert key x l.
Proof.
  unfold upsert; simpl. destruct (decide (key y = key x)); [done|].
  by destruct (list_find _ l) as [[i z]|].
Qed.

Lemma findBy_cons k y l :
  findBy key k (y :: l) = if decide (key y = k) then Some y else findBy key k l.
Proof.
  unfold findBy; simpl. destruct (decide (key y = k)); [done|].
  by destruct (list_find _ l) as [[i z]|].
Qed.

Lemma findBy_Some k l x : findBy key k l = Some x → x ∈ l ∧ key x = k.
Proof.
  induction l as [|y l IH]; [done|]. rewrite findBy_cons.
  destruct (decide (key y = k)).
  - intros [= ->]. split; [left|done].
  - intros [??]%IH. split; [by right|done].
Qed.

Lemma findBy_None k l : findBy key k l = None ↔ Forall (λ y, key y ≠ k) l.
Proof.
  unfold findBy. rewrite fmap_None. apply list_find_None.
Qed.

Lemma findBy_NoDup l x :
  NoDup (key <$> l) → x ∈ l → findBy key (key x) l = Some x.
Proof.
  induction l as [|y l IH]; simpl; [by intros _ ?%elem_of_nil|].
  intros [Hy Hl]%NoDup_cons [->|Hx]%elem_of_cons; rewrite findBy_cons.
  - by rewrite decide_True.
  - rewrite decide_False; [by apply IH|].
    intros Heq. apply Hy. rewrite Heq. by apply list_elem_of_fmap_2.
Qed.

(** *** upsert *)

Lemma findBy_upsert_eq x l : findBy key (key x) (upsert key x l) = Some x.
Proof.
  induction l as [|y l IH].
  - unfold upsert; simpl. by rewrite findBy_cons, decide_True.
  - rewrite upsert_cons. destruct (decide (key y = key x)).
    + by rewrite findBy_cons, decide_True.
    + by rewrite findBy_cons, decide_False.
Qed.

Lemma findBy_upsert_ne k x l :
  k ≠ key x → findBy key k (upsert key x l) = findBy key k l.
Proof.
  intros Hk. induction l as [|y l IH].
  - unfold upsert; simpl. by rewrite findBy_cons, decide_False.
  - rewrite upsert_cons. destruct (decide (key y = key x)) as [Heq|].
    + rewrite !findBy_cons, !decide_False; [done|congruence..].
    + rewrite !findBy_cons. by destruct (decide (key y = k)).
Qed.

Lemma upsert_idem x l : upsert key x (upsert key x l) = upsert key x l.
Proof.
  induction l as [|y l IH].
  - unfold upsert at 2; simpl. by rewrite upsert_cons, decide_True.
  - rewrite upsert_cons. destruct (decide (key y = key x)).
    + by rewrite upsert_cons, decide_True.
    + rewrite upsert_cons, decide_False by done. by rewrite IH.
Qed.

Lemma upsert_keys x l :
  key <$> upsert key x l
  = if decide (key x ∈ key <$> l) then key <$> l else (key <$> l) ++ [key x].
Proof.
  induction l as [|y l IH].
  - case_decide as Hin; [by apply elem_of_nil in Hin|done].
  - rewrite upsert_cons. destruct (decide (key y = key x)) as [Heq|Hne].
    + rewrite decide_True; [by rewrite !fmap_cons, Heq|].
      rewrite fmap_cons, Heq. left.
    + rewrite !fmap_cons, IH.
      destruct (decide (key x ∈ key <$> l)) as [Hin|Hnin].
      * rewrite decide_True; [done|by right].
      * rewrite decide_False; [done|].
        intros [?|?]%elem_of_cons; congruence.
Qed.

Lemma upsert_NoDup x l : NoDup (key <$> l) → NoDup (key <$> upsert key x l).
Proof.
  intros Hl. rewrite upsert_keys. case_decide; [done|].
  apply NoDup_app; split_and!; [done| |apply NoDup_singleton].
  intros k Hk ->%list_elem_of_singleton. done.
Qed.

(** A run of upserts, as [forEach(x => save(x))] performs it. *)
Lemma upserts_findBy_notin k xs l :
  k ∉ key <$> xs →
  findBy key k (fold_left (λ acc x, upsert key x acc) xs l) = findBy key k l.
Proof.
  revert l. induction xs as [|x xs IH]; intros l Hk; simpl; [done|].
  rewrite fmap_cons, not_elem_of_cons in Hk. destruct Hk as [Hx Hxs].
  rewrite IH by done. by apply findBy_upsert_ne.
Qed.

Lemma upserts_findBy_in x xs l :
  NoDup (key <$> xs) → x ∈ xs →
  findBy key (key x) (fold_left (λ acc y, upsert key y acc) xs l) = Some x.
Proof.
  revert l. induction xs as [|y xs IH]; intros l Hnd Hx; simpl.
  { by apply elem_of_nil in Hx. }
  rewrite fmap_cons, NoDup_cons in Hnd. destruct Hnd as [Hy Hnd].
  apply elem_of_cons in Hx as [->|Hx]; [|by apply IH].
  rewrite upserts_findBy_notin by done. apply findBy_upsert_eq.
Qed.

(** *** remove *)

Lemma remove_absent k l : Forall (λ y, key y ≠ k) l → remove key k l = l.
Proof.
  unfold remove. induction 1 as [|y l Hy _ IH]; [done|].
  by rewrite filter_cons_True, IH.
Qed.

Lemma remove_once k l1 e l2 :
  key e = k → Forall (λ y, key y ≠ k) (l1 ++ l2) →
  remove key k (l1 ++ e :: l2) = l1 ++ l2.
Proof.
  intros He [H1 H2]%Forall_app.
  pose proof (remove_absent k l1 H1) as E1.
  pose proof (remove_absent k l2 H2) as E2. unfold remove in *.
  rewrite filter_app, filter_cons_False by (by intros ?).
  by rewrite E1, E2.
Qed.

Lemma remove_removesEntriesOf k l : removesEntriesOf key k l (remove key k l).
Proof.
  split_and!.
  - intros x. unfold remove. rewrite list_elem_of_filter. tauto.
  - apply sublist_filter.
  - intros l1 e l2 -> ??. by apply remove_once.
  - apply remove_absent.
Qed.

Lemma remove_length k l :
  (length (remove key k l) + length (filter (λ y, key y = k) l) = length l)%nat.
Proof.
  unfold remove. induction l as [|y l IH]; [done|].
  rewrite !filter_cons. destruct (decide (key y = k)).
  - rewrite decide_False by (by intros ?). simpl. lia.
  - rewrite decide_True by done. simpl. lia.
Qed.
End CollectionFacts.

(** ** The storage service *)

Lemma spread_stringify d settings :
  CompanySettings.spread d (CompanySettings.stringify settings) = settings.
Proof. by destruct settings. Qed.

Lemma getSettings_saveSettings settings ls :
  getSettings (saveSettings settings ls) = settings.
Proof. apply spread_stringify. Qed.

Lemma getDocuments_saveDocument doc ls :
  getDocuments (saveDocument doc ls) = upsert Document.id doc (getDocuments ls).
Proof. done. Qed.

Lemma getInventory_saveProduct p ls :
  getInventory (saveProduct p ls) = upsert Product.id p (getInventory ls).
Proof. done. Qed.

Lemma saveDocument_idem doc ls :
  saveDocument doc (saveDocument doc ls) = saveDocument doc ls.
Proof.
  unfold saveDocument at 1 3. rewrite getDocuments_saveDocument, upsert_idem.
  done.
Qed.

(** C9: with nothing stored, [getSettings] returns the default
    configuration, whose counters are both 1 and whose tax rate is 16; with
    a stored object, every field of the result is the stored field when it
    is present and the default when it is absent. *)
Theorem getSettings_defaults :
  (∀ docs inv cl, getSettings (mkStorage None docs inv cl) = DEFAULT_SETTINGS) ∧
  CompanySettings.nextBudgetNumber DEFAULT_SETTINGS = 1%Z ∧
  CompanySettings.nextDeliveryNumber DEFAULT_SETTINGS = 1%Z ∧
  CompanySettings.defaultTaxRate DEFAULT_SETTINGS = num 16 ∧
  (∀ saved docs inv cl (f : CompanySettings.field),
     CompanySettings.get f (getSettings (mkStorage (Some saved) docs inv cl))
     = match CompanySettings.get' f saved with
       | Some v => v
       | None => CompanySettings.get f DEFAULT_SETTINGS
       end).
Proof.
  split_and!; [done..|].
  intros saved docs inv cl f. unfold getSettings; simpl.
  destruct f; simpl;
    match goal with |- default _ ?o = _ => by destruct o end.
Qed.

Example getSettings_sparse :
  let s := getSettings (mkStorage (Some sparseSettings) None None None) in
  CompanySettings.nextBudgetNumber s = 41%Z ∧
  CompanySettings.nextDeliveryNumber s = 1%Z ∧
  CompanySettings.defaultTaxRate s = num 8 ∧
  CompanySettings.name s = "Casticel C.A.".
Proof. done. Qed.

(** C7, as stated, fails: deleting an id that no entry carries removes no
    entry at all.  The directory holds the clients c-1 and c-2; deleting
    c-3 leaves both. *)
Lemma delete_counterexample :
  getClients twoClients = [clientAna; clientLuis] ∧
  getClients (deleteClient "c-3" twoClients) = [clientAna; clientLuis] ∧
  length (getClients (deleteClient "c-3" twoClients))
    = length (getClients twoClients).
Proof. done. Qed.

(** C7, amended: for each collection and every id, the delete operation
    removes the entries whose id is the given one and keeps all other
    entries, unchanged and in order: exactly one entry goes when the id
    occurs once, none when it does not occur.  The other collections and the
    settings are not touched. *)
Theorem delete_by_id ls id :
  removesEntriesOf Document.id (Some id)
    (getDocuments ls) (getDocuments (deleteDocument id ls)) ∧
  removesEntriesOf Product.id id
    (getInventory ls) (getInventory (deleteProduct id ls)) ∧
  removesEntriesOf Client.id id
    (getClients ls) (getClients (deleteClient id ls)) ∧
  (getInventory (deleteDocument id ls) = getInventory ls ∧
   getClients (deleteDocument id ls) = getClients ls ∧
   getSettings (deleteDocument id ls) = getSettings ls) ∧
  (getDocuments (deleteProduct id ls) = getDocuments ls ∧
   getClients (deleteProduct id ls) = getClients ls ∧
   getSettings (deleteProduct id ls) = getSettings ls) ∧
  (getDocuments (deleteClient id ls) = getDocuments ls ∧
   getInventory (deleteClient id ls) = getInventory ls ∧
   getSettings (deleteClient id ls) = getSettings ls).
Proof.
  split_and!; try done; apply remove_removesEntriesOf.
Qed.

Example delete_present :
  getClients (deleteClient "c-1" twoClients) = [clientLuis].
Proof. done. Qed.

(** ** Document numbers *)

Lemma substring_repeat_zero k :
  String.substring 0 k (repeat_string k "0") = repeat_string k "0".
Proof. induction k as [|k IH]; simpl; [done|]. by f_equal. Qed.

Lemma padStart_zero n s :
  padStart n "0" s = repeat_string (n - String.length s) "0" +:+ s.
Proof. unfold padStart; simpl. by rewrite substring_repeat_zero. Qed.

Lemma formatNumber_truthy d n : truthy (Some (formatNumber (prefix d) n)) = true.
Proof. unfold formatNumber, prefix, truthy. by destruct (isBudget d). Qed.

Example formatNumber_examples :
  formatNumber "PRE-" 1 = "PRE-000001" ∧
  formatNumber "NE-" 42 = "NE-000042" ∧
  formatNumber "PRE-" 999999 = "PRE-999999" ∧
  formatNumber "PRE-" 1234567 = "PRE-1234567".
Proof. by vm_compute. Qed.

Lemma nextNum_withCounter d n settings : nextNum (withCounter d n settings) d = n.
Proof. unfold nextNum, withCounter. by destruct (isBudget d). Qed.

Lemma nextNum_same_type d1 d2 settings :
  Document.type d2 = Document.type d1 → nextNum settings d2 = nextNum settings d1.
Proof. unfold nextNum, isBudget. by intros ->. Qed.

Lemma prefix_same_type d1 d2 :
  Document.type d2 = Document.type d1 → prefix d2 = prefix d1.
Proof. unfold prefix, isBudget. by intros ->. Qed.

Lemma withCounter_same_type d1 d2 n settings :
  Document.type d2 = Document.type d1 →
  withCounter d2 n settings = withCounter d1 n settings.
Proof. unfold withCounter, isBudget. by intros ->. Qed.

(** ** Saving a document *)

Lemma saveProducts_frame newInv ls :
  casticel_settings (saveProducts newInv ls) = casticel_settings ls ∧
  casticel_documents (saveProducts newInv ls) = casticel_documents ls ∧
  casticel_clients (saveProducts newInv ls) = casticel_clients ls.
Proof.
  unfold saveProducts. revert ls.
  induction newInv as [|p newInv IH]; intros ls; simpl; [done|].
  destruct (IH (saveProduct p ls)) as (-> & -> & ->). done.
Qed.

Lemma setDocuments_same docs ls :
  casticel_documents ls = Some docs → setDocuments docs ls = ls.
Proof. destruct ls; simpl. by intros ->. Qed.

Lemma handleSaveDocument_blocked s :
  truthy (Document.clientName (currentDoc s)) = false →
  handleSaveDocument s = (s, "El cliente es obligatorio").
Proof. intros Hc. unfold handleSaveDocument. by rewrite Hc. Qed.

Lemma handleSaveDocument_numbered s :
  truthy (Document.clientName (currentDoc s)) = true →
  truthy (Document.number (currentDoc s)) = true →
  (handleSaveDocument s).1
  = let finalDoc := Document.finalized (Document.number (currentDoc s)) (currentDoc s) in
    let ls2 := saveDocument finalDoc (localStorage s) in
    mkApp (settings s) (getDocuments ls2) (inventory s) (clients s) finalDoc ls2.
Proof.
  intros Hc Hn. unfold handleSaveDocument. rewrite Hc, Hn; simpl.
  by rewrite andb_false_r.
Qed.

Lemma handleSaveDocument_new s :
  truthy (Document.clientName (currentDoc s)) = true →
  truthy (Document.number (currentDoc s)) = false →
  (handleSaveDocument s).1
  = let doc := currentDoc s in
    let n := nextNum (settings s) doc in
    let newSettings := withCounter doc (toDouble (n + 1)) (settings s) in
    let finalDoc := Document.finalized (Some (formatNumber (prefix doc) n)) doc in
    let ls2 := saveDocument finalDoc (saveSettings newSettings (localStorage s)) in
    if bool_decide (Document.type doc = Some entrega) then
      let newInv := deductStock (Document.items doc) (inventory s) in
      mkApp newSettings (getDocuments ls2) newInv (clients s) finalDoc
            (saveProducts newInv ls2)
    else
      mkApp newSettings (getDocuments ls2) (inventory s) (clients s) finalDoc ls2.
Proof.
  intros Hc Hn. unfold handleSaveDocument. rewrite Hc, Hn; simpl.
  by case_bool_decide.
Qed.

(** A save that goes through leaves the editor on a numbered, final
    document that carries a client name. *)
Lemma handleSaveDocument_final s :
  truthy (Document.clientName (currentDoc s)) = true →
  let d' := currentDoc (handleSaveDocument s).1 in
  truthy (Document.clientName d') = true ∧
  truthy (Document.number d') = true ∧
  Document.status d' = Some final.
Proof.
  intros Hc. destruct (truthy (Document.number (currentDoc s))) eqn:Hn.
  - rewrite handleSaveDocument_numbered by done. simpl. done.
  - rewrite handleSaveDocument_new by done. simpl.
    case_bool_decide; simpl; split_and!; try done; apply formatNumber_truthy.
Qed.

(** C8: with an empty (or absent) client name, [handleSaveDocument] shows
    the blocking notification and returns with the whole state as it was:
    document list, counters, settings, inventory and storage. *)
Theorem save_requires_client s :
  truthy (Document.clientName (currentDoc s)) = false →
  handleSaveDocument s = (s, "El cliente es obligatorio") ∧
  documents (handleSaveDocument s).1 = documents s ∧
  settings (handleSaveDocument s).1 = settings s ∧
  inventory (handleSaveDocument s).1 = inventory s ∧
  localStorage (handleSaveDocument s).1 = localStorage s.
Proof. intros Hc. by rewrite handleSaveDocument_blocked. Qed.

Lemma save_requires_client_witness :
  truthy (Document.clientName (currentDoc freshState)) = false ∧
  handleSaveDocument freshState = (freshState, "El cliente es obligatorio").
Proof.
  split; [reflexivity|].
  exact (proj1 (save_requires_client freshState eq_refl)).
Defined.

Lemma finalized_final d :
  Document.status d = Some final → Document.finalized (Document.number d) d = d.
Proof. destruct d; simpl. by intros ->. Qed.

(** After a save that goes through, the stored document list is the result
    of an upsert of the editor's document, and the list in memory is the
    stored one. *)
Lemma handleSaveDocument_stored s :
  truthy (Document.clientName (currentDoc s)) = true →
  let s' := (handleSaveDocument s).1 in
  (∃ docs, casticel_documents (localStorage s')
           = Some (upsert Document.id (currentDoc s') docs)) ∧
  documents s' = getDocuments (localStorage s').
Proof.
  intros Hc. destruct (truthy (Document.number (currentDoc s))) eqn:Hn.
  - rewrite handleSaveDocument_numbered by done. simpl. eauto.
  - rewrite handleSaveDocument_new by done. simpl.
    case_bool_decide; simpl; [|eauto].
    unfold getDocuments.
    match goal with |- context [saveProducts ?inv ?ls] =>
      destruct (saveProducts_frame inv ls) as (_ & -> & _) end.
    simpl. eauto.
Qed.

Lemma handleSaveDocument_idem s :
  (handleSaveDocument (handleSaveDocument s).1).1 = (handleSaveDocument s).1.
Proof.
  destruct (truthy (Document.clientName (currentDoc s))) eqn:Hc.
  - destruct (handleSaveDocument_final s Hc) as (Hc' & Hn' & Hst).
    destruct (handleSaveDocument_stored s Hc) as ([docs Hdocs] & Hmem).
    set (s1 := (handleSaveDocument s).1) in *.
    rewrite handleSaveDocument_numbered by done. cbv zeta.
    rewrite finalized_final by done.
    assert (saveDocument (currentDoc s1) (localStorage s1) = localStorage s1)
      as ->.
    { unfold saveDocument, getDocuments. rewrite Hdocs; simpl.
      rewrite upsert_idem. by apply setDocuments_same. }
    rewrite <- Hmem. by destruct s1.
  - rewrite (handleSaveDocument_blocked s Hc); simpl.
    by rewrite (handleSaveDocument_blocked s Hc).
Qed.

(** C3, as stated, fails: the editor right after "Nuevo Doc" holds a
    document without a number and with an empty client name; saving it
    assigns no number, advances no counter and persists nothing.  And with
    9007199254740992 (2^53) typed into "Próx. Presupuesto", the save of a
    quote for a named client assigns the number but leaves the counter
    where it was: the sum [nextNum + 1] is rounded back to 2^53. *)
Lemma numbering_counterexample :
  Document.number (currentDoc freshState) = None ∧
  handleSaveDocument freshState = (freshState, "El cliente es obligatorio") ∧
  Document.number (currentDoc (handleSaveDocument freshState).1) = None ∧
  settings (handleSaveDocument freshState).1 = settings freshState ∧
  localStorage (handleSaveDocument freshState).1 = localStorage freshState ∧
  Document.number (currentDoc atLimit) = None ∧
  truthy (Document.clientName (currentDoc atLimit)) = true ∧
  Document.number (currentDoc (handleSaveDocument atLimit).1)
    = Some "PRE-9007199254740992" ∧
  CompanySettings.nextBudgetNumber (settings (handleSaveDocument atLimit).1)
    = CompanySettings.nextBudgetNumber (settings atLimit).
Proof. by vm_compute. Qed.

(** C3, amended: for every document whose number is unset and whose client
    name is not empty, and a counter of its type that is a safe integer (a
    whole number of magnitude at most 2^53 - 1), the save assigns the number
    made of the type's prefix (PRE- for a quote, NE- for a delivery note)
    and the type's current counter padded with zeros to six characters,
    adds 1 to exactly that counter, leaves every other settings field
    alone, and persists the new settings and, under the id of the document,
    a document with that number. *)
Theorem numbering s :
  truthy (Document.clientName (currentDoc s)) = true →
  truthy (Document.number (currentDoc s)) = false →
  let s' := (handleSaveDocument s).1 in
  let budget := CompanySettings.nextBudgetNumber in
  let delivery := CompanySettings.nextDeliveryNumber in
  (Document.type (currentDoc s) = Some presupuesto →
   isSafeInteger (budget (settings s)) →
     Document.number (currentDoc s')
       = Some ("PRE-" +:+ padStart 6 "0" (pretty (budget (settings s)))) ∧
     budget (settings s') = (budget (settings s) + 1)%Z ∧
     delivery (settings s') = delivery (settings s)) ∧
  (Document.type (currentDoc s) = Some entrega →
   isSafeInteger (delivery (settings s)) →
     Document.number (currentDoc s')
       = Some ("NE-" +:+ padStart 6 "0" (pretty (delivery (settings s)))) ∧
     delivery (settings s') = (delivery (settings s) + 1)%Z ∧
     budget (settings s') = budget (settings s)) ∧
  (∀ n : Z, padStart 6 "0" (pretty n)
            = repeat_string (6 - String.length (pretty n)) "0" +:+ pretty n) ∧
  (∀ f, f ≠ CompanySettings.f_nextBudgetNumber →
        f ≠ CompanySettings.f_nextDeliveryNumber →
        CompanySettings.get f (settings s') = CompanySettings.get f (settings s)) ∧
  getSettings (localStorage s') = settings s' ∧
  (∃ stored,
     findBy Document.id (Document.id (currentDoc s)) (getDocuments (localStorage s'))
       = Some stored ∧
     Document.number stored = Document.number (currentDoc s')).
Proof.
  intros Hc Hn s' budget delivery.
  assert (Hset : settings s'
    = withCounter (currentDoc s)
        (toDouble (nextNum (settings s) (currentDoc s) + 1)) (settings s)).
  { subst s'. rewrite handleSaveDocument_new by done. cbv zeta.
    by case_bool_decide. }
  assert (Hnum : Document.number (currentDoc s')
    = Some (formatNumber (prefix (currentDoc s))
              (nextNum (settings s) (currentDoc s)))).
  { subst s'. rewrite handleSaveDocument_new by done. cbv zeta.
    by case_bool_decide. }
  split_and!.
  - intros Hty Hsafe. rewrite Hset, Hnum.
    unfold withCounter, prefix, nextNum, isBudget. rewrite Hty; simpl.
    by rewrite toDouble_succ.
  - intros Hty Hsafe. rewrite Hset, Hnum.
    unfold withCounter, prefix, nextNum, isBudget. rewrite Hty; simpl.
    by rewrite toDouble_succ.
  - intros n. apply padStart_zero.
  - intros f Hb Hd. rewrite Hset. unfold withCounter.
    by destruct (isBudget (currentDoc s)), f.
  - rewrite Hset. subst s'. rewrite handleSaveDocument_new by done. cbv zeta.
    unfold getSettings. case_bool_decide; simpl; [|apply spread_stringify].
    match goal with |- context [saveProducts ?inv ?ls] =>
      destruct (saveProducts_frame inv ls) as (-> & _ & _) end.
    apply spread_stringify.
  - exists (currentDoc s'). split; [|done].
    destruct (handleSaveDocument_stored s Hc) as ([docs Hdocs] & _).
    fold s' in Hdocs. unfold getDocuments. rewrite Hdocs; simpl.
    replace (Document.id (currentDoc s)) with (Document.id (currentDoc s')).
    + apply findBy_upsert_eq.
    + subst s'. rewrite handleSaveDocument_new by done. cbv zeta.
      by case_bool_decide.
Qed.

Lemma numbering_witness :
  truthy (Document.clientName (currentDoc quoteState)) = true ∧
  truthy (Document.number (currentDoc quoteState)) = false ∧
  isSafeInteger (CompanySettings.nextBudgetNumber (settings quoteState)) ∧
  Document.number (currentDoc (handleSaveDocument quoteState).1)
    = Some ("PRE-" +:+ padStart 6 "0"
              (pretty (CompanySettings.nextBudgetNumber (settings quoteState)))) ∧
  CompanySettings.nextBudgetNumber (settings (handleSaveDocument quoteState).1)
    = (CompanySettings.nextBudgetNumber (settings quoteState) + 1)%Z.
Proof.
  assert (Hsafe : isSafeInteger
                    (CompanySettings.nextBudgetNumber (settings quoteState))).
  { by vm_compute. }
  split; [reflexivity|]. split; [reflexivity|]. split; [exact Hsafe|].
  pose proof (proj1 (numbering quoteState eq_refl eq_refl) eq_refl Hsafe) as H.
  exact (conj (proj1 H) (proj1 (proj2 H))).
Defined.

Example numbering_first_quote :
  Document.number (currentDoc (handleSaveDocument quoteState).1)
    = Some "PRE-000001" ∧
  CompanySettings.nextBudgetNumber (settings (handleSaveDocument quoteState).1)
    = 2%Z ∧
  CompanySettings.nextBudgetNumber
    (getSettings (localStorage (handleSaveDocument quoteState).1)) = 2%Z.
Proof. by vm_compute. Qed.

(** C4: saving a document that already has a number keeps the number and
    leaves the settings, hence both counters, as they were, in memory and in
    storage; and saving again right after a save returns the very same
    state: same number, same counters, same persisted document list. *)
Theorem resave :
  (∀ s, truthy (Document.number (currentDoc s)) = true →
     let s' := (handleSaveDocument s).1 in
     Document.number (currentDoc s') = Document.number (currentDoc s) ∧
     settings s' = settings s ∧
     casticel_settings (localStorage s') = casticel_settings (localStorage s)) ∧
  (∀ s,
     let s1 := (handleSaveDocument s).1 in
     let s2 := (handleSaveDocument s1).1 in
     Document.number (currentDoc s2) = Document.number (currentDoc s1) ∧
     CompanySettings.nextBudgetNumber (settings s2)
       = CompanySettings.nextBudgetNumber (settings s1) ∧
     CompanySettings.nextDeliveryNumber (settings s2)
       = CompanySettings.nextDeliveryNumber (settings s1) ∧
     getSettings (localStorage s2) = getSettings (localStorage s1) ∧
     getDocuments (localStorage s2) = getDocuments (localStorage s1) ∧
     s2 = s1).
Proof.
  split.
  - intros s Hn s'. subst s'.
    destruct (truthy (Document.clientName (currentDoc s))) eqn:Hc.
    + by rewrite handleSaveDocument_numbered.
    + by rewrite handleSaveDocument_blocked.
  - intros s s1 s2. subst s1 s2. by rewrite handleSaveDocument_idem.
Qed.

Lemma resave_witness :
  truthy (Document.number (currentDoc (handleSaveDocument quoteState).1)) = true ∧
  Document.number
    (currentDoc (handleSaveDocument (handleSaveDocument quoteState).1).1)
  = Document.number (currentDoc (handleSaveDocument quoteState).1).
Proof.
  split; [reflexivity|].
  exact (proj1 (proj1 resave (handleSaveDocument quoteState).1 eq_refl)).
Defined.

Example resave_first_quote :
  let s1 := (handleSaveDocument quoteState).1 in
  let s2 := (handleSaveDocument s1).1 in
  Document.number (currentDoc s1) = Some "PRE-000001" ∧
  Document.number (currentDoc s2) = Some "PRE-000001" ∧
  CompanySettings.nextBudgetNumber (settings s2) = 2%Z ∧
  length (getDocuments (localStorage s2)) = 1%nat.
Proof. by vm_compute. Qed.

(** C6, as stated, fails: the counter is a double, and at 2^53 adding 1
    returns 2^53 again.  With 9007199254740992 typed into "Próx.
    Presupuesto", two quotes finalized one after the other both consume
    that value and get the same number, and the counter stays where it
    was. *)
Lemma counters_counterexample :
  let s1 := (handleSaveDocument atLimit).1 in
  let s2 := (handleSaveDocument (setCurrentDoc secondQuote s1)).1 in
  Document.type (currentDoc atLimit) = Some presupuesto ∧
  Document.type secondQuote = Some presupuesto ∧
  Document.number (currentDoc atLimit) = None ∧
  Document.number secondQuote = None ∧
  Document.id (currentDoc atLimit) ≠ Document.id secondQuote ∧
  CompanySettings.nextBudgetNumber (settings atLimit) = 9007199254740992%Z ∧
  Document.number (currentDoc s1) = Some "PRE-9007199254740992" ∧
  CompanySettings.nextBudgetNumber (settings s1) = 9007199254740992%Z ∧
  Document.number (currentDoc s2) = Some "PRE-9007199254740992" ∧
  CompanySettings.nextBudgetNumber (settings s2) = 9007199254740992%Z ∧
  ¬ (CompanySettings.nextBudgetNumber (settings atLimit)
     < CompanySettings.nextBudgetNumber (settings s1))%Z.
Proof. by vm_compute. Qed.

(** C6, amended: saving a quote never changes the delivery counter and
    saving a delivery note never changes the quote counter, in the settings
    the component holds and, when these are the stored ones, in storage;
    two documents of the same type finalized one after the other take the
    counter values n and n + 1 and leave the counter at n + 2, as long as
    n and n + 1 are safe integers (whole numbers of magnitude at most
    2^53 - 1). *)
Theorem counters_independent :
  (∀ s, Document.type (currentDoc s) = Some presupuesto →
     CompanySettings.nextDeliveryNumber (settings (handleSaveDocument s).1)
     = CompanySettings.nextDeliveryNumber (settings s) ∧
     (getSettings (localStorage s) = settings s →
      CompanySettings.nextDeliveryNumber
        (getSettings (localStorage (handleSaveDocument s).1))
      = CompanySettings.nextDeliveryNumber (getSettings (localStorage s)))) ∧
  (∀ s, Document.type (currentDoc s) = Some entrega →
     CompanySettings.nextBudgetNumber (settings (handleSaveDocument s).1)
     = CompanySettings.nextBudgetNumber (settings s) ∧
     (getSettings (localStorage s) = settings s →
      CompanySettings.nextBudgetNumber
        (getSettings (localStorage (handleSaveDocument s).1))
      = CompanySettings.nextBudgetNumber (getSettings (localStorage s)))) ∧
  (∀ s d2,
     let d1 := currentDoc s in
     truthy (Document.clientName d1) = true →
     truthy (Document.number d1) = false →
     truthy (Document.clientName d2) = true →
     truthy (Document.number d2) = false →
     Document.type d2 = Document.type d1 →
     let n := nextNum (settings s) d1 in
     isSafeInteger n →
     isSafeInteger (n + 1) →
     let s1 := (handleSaveDocument s).1 in
     let s2 := (handleSaveDocument (setCurrentDoc d2 s1)).1 in
     Document.number (currentDoc s1) = Some (formatNumber (prefix d1) n) ∧
     nextNum (settings s1) d1 = (n + 1)%Z ∧
     Document.number (currentDoc s2) = Some (formatNumber (prefix d1) (n + 1)) ∧
     nextNum (settings s2) d1 = (n + 2)%Z).
Proof.
  assert (Hsettings : ∀ s,
    settings (handleSaveDocument s).1 = settings s ∨
    settings (handleSaveDocument s).1
    = withCounter (currentDoc s)
        (toDouble (nextNum (settings s) (currentDoc s) + 1)) (settings s)).
  { intros s. destruct (truthy (Document.clientName (currentDoc s))) eqn:Hc;
      [|left; by rewrite handleSaveDocument_blocked].
    destruct (truthy (Document.number (currentDoc s))) eqn:Hn;
      [left; by rewrite handleSaveDocument_numbered|right].
    rewrite handleSaveDocument_new by done. cbv zeta. by case_bool_decide. }
  assert (Hstored : ∀ s, getSettings (localStorage s) = settings s →
    getSettings (localStorage (handleSaveDocument s).1)
    = settings (handleSaveDocument s).1).
  { intros s Hsync. destruct (truthy (Document.clientName (currentDoc s))) eqn:Hc;
      [|by rewrite handleSaveDocument_blocked].
    destruct (truthy (Document.number (currentDoc s))) eqn:Hn;
      [by rewrite handleSaveDocument_numbered|].
    rewrite handleSaveDocument_new by done. cbv zeta. unfold getSettings.
    case_bool_decide; simpl; [|apply spread_stringify].
    match goal with |- context [saveProducts ?inv ?ls] =>
      destruct (saveProducts_frame inv ls) as (-> & _ & _) end.
    apply spread_stringify. }
  split; [|split].
  - intros s Hty.
    assert (CompanySettings.nextDeliveryNumber (settings (handleSaveDocument s).1)
            = CompanySettings.nextDeliveryNumber (settings s)) as Hmem.
    { destruct (Hsettings s) as [->| ->]; [done|].
      unfold withCounter, isBudget. by rewrite Hty. }
    split; [done|]. intros Hsync. by rewrite (Hstored s Hsync), Hsync.
  - intros s Hty.
    assert (CompanySettings.nextBudgetNumber (settings (handleSaveDocument s).1)
            = CompanySettings.nextBudgetNumber (settings s)) as Hmem.
    { destruct (Hsettings s) as [->| ->]; [done|].
      unfold withCounter, isBudget. by rewrite Hty. }
    split; [done|]. intros Hsync. by rewrite (Hstored s Hsync), Hsync.
  - intros s d2 d1 Hc1 Hn1 Hc2 Hn2 Hty n Hsafe Hsafe' s1 s2.
    assert (Hs1 : settings s1 = withCounter d1 (n + 1)%Z (settings s)
                  ∧ Document.number (currentDoc s1)
                    = Some (formatNumber (prefix d1) n)).
    { subst s1. rewrite handleSaveDocument_new by done. cbv zeta.
      fold d1 n. rewrite (toDouble_succ n Hsafe). by case_bool_decide. }
    destruct Hs1 as [Hset1 Hnum1].
    assert (Hs2 : settings s2 = withCounter d1 (n + 1 + 1)%Z (settings s1)
                  ∧ Document.number (currentDoc s2)
                    = Some (formatNumber (prefix d1) (n + 1))).
    { subst s2. rewrite handleSaveDocument_new by done. cbv zeta.
      replace (currentDoc (setCurrentDoc d2 s1)) with d2 by done.
      replace (settings (setCurrentDoc d2 s1)) with (settings s1) by done.
      rewrite (nextNum_same_type d1 d2), (prefix_same_type d1 d2),
        (withCounter_same_type d1 d2) by done.
      rewrite Hset1, nextNum_withCounter, (toDouble_succ _ Hsafe').
      by case_bool_decide. }
    destruct Hs2 as [Hset2 Hnum2].
    split_and!; [done| |done|].
    + by rewrite Hset1, nextNum_withCounter.
    + rewrite Hset2, nextNum_withCounter. lia.
Qed.

(** The double nearest to a positive whole number is positive. *)
Lemma toDouble_pos z : (0 < z)%Z → (0 < toDouble z)%Z.
Proof.
  intros Hz. unfold toDouble. rewrite (Z.abs_eq z) by lia.
  destruct (Z.ltb_spec z (2 ^ 53)) as [|Hbig]; [done|].
  rewrite (Z.sgn_pos z), Z.mul_1_l by done.
  assert (53 ≤ Z.log2 z)%Z as Hlog by (by apply Z.log2_le_pow2).
  set (ulp := (2 ^ (Z.log2 z - 52))%Z).
  assert (0 < ulp)%Z as Hulp by (apply Z.pow_pos_nonneg; lia).
  assert (ulp ≤ z)%Z as Hle.
  { etrans; [|apply (Z.log2_spec z Hz)].
    apply Z.pow_le_mono_r; lia. }
  assert (1 ≤ z / ulp)%Z as Hq by (by apply Z.div_le_lower_bound; lia).
  repeat case_match; nia.
Qed.

(** The counters stay positive: a save leaves each counter as it is or
    raises it to the double nearest to its successor. *)
Lemma counters_positive s :
  (0 < CompanySettings.nextBudgetNumber (settings s))%Z →
  (0 < CompanySettings.nextDeliveryNumber (settings s))%Z →
  (0 < CompanySettings.nextBudgetNumber (settings (handleSaveDocument s).1))%Z ∧
  (0 < CompanySettings.nextDeliveryNumber (settings (handleSaveDocument s).1))%Z.
Proof.
  intros Hb Hd.
  destruct (truthy (Document.clientName (currentDoc s))) eqn:Hc;
    [|by rewrite handleSaveDocument_blocked].
  destruct (truthy (Document.number (currentDoc s))) eqn:Hn;
    [by rewrite handleSaveDocument_numbered|].
  rewrite handleSaveDocument_new by done. cbv zeta.
  unfold withCounter, nextNum.
  case_bool_decide; destruct (isBudget (currentDoc s)); simpl;
    (split; [try done|try done]); apply toDouble_pos; lia.
Qed.

Lemma counters_independent_witness :
  Document.type (currentDoc quoteState) = Some presupuesto ∧
  truthy (Document.clientName (currentDoc quoteState)) = true ∧
  truthy (Document.number (currentDoc quoteState)) = false ∧
  truthy (Document.clientName secondQuote) = true ∧
  truthy (Document.number secondQuote) = false ∧
  Document.type secondQuote = Document.type (currentDoc quoteState) ∧
  isSafeInteger (nextNum (settings quoteState) (currentDoc quoteState)) ∧
  isSafeInteger (nextNum (settings quoteState) (currentDoc quoteState) + 1) ∧
  CompanySettings.nextDeliveryNumber (settings (handleSaveDocument quoteState).1)
  = CompanySettings.nextDeliveryNumber (settings quoteState) ∧
  Document.number
    (currentDoc
       (handleSaveDocument
          (setCurrentDoc secondQuote (handleSaveDocument quoteState).1)).1)
  = Some (formatNumber (prefix (currentDoc quoteState))
            (nextNum (settings quoteState) (currentDoc quoteState) + 1)).
Proof.
  assert (Hsafe : isSafeInteger
                    (nextNum (settings quoteState) (currentDoc quoteState))).
  { by vm_compute. }
  assert (Hsafe' : isSafeInteger
                     (nextNum (settings quoteState) (currentDoc quoteState) + 1)).
  { by vm_compute. }
  do 6 (split; [reflexivity|]). split; [exact Hsafe|]. split; [exact Hsafe'|].
  split.
  - exact (proj1 (proj1 counters_independent quoteState eq_refl)).
  - exact (proj1 (proj2 (proj2 (proj2 (proj2 counters_independent)
             quoteState secondQuote eq_refl eq_refl eq_refl eq_refl eq_refl
             Hsafe Hsafe')))).
Defined.

Example two_quotes_in_sequence :
  let s1 := (handleSaveDocument quoteState).1 in
  let s2 := (handleSaveDocument (setCurrentDoc secondQuote s1)).1 in
  Document.number (currentDoc s1) = Some "PRE-000001" ∧
  Document.number (currentDoc s2) = Some "PRE-000002" ∧
  CompanySettings.nextBudgetNumber (settings s2) = 3%Z ∧
  CompanySettings.nextDeliveryNumber (settings s2) = 1%Z.
Proof. by vm_compute. Qed.

(** ** Stock deduction *)

Lemma with_stock_same p : Product.with_stock (Product.stock p - 0) p = p.
Proof.
  destruct p as [i c d pr st u]; unfold Product.with_stock; simpl.
  f_equal. ring.
Qed.

Lemma with_stock_twice a b p :
  Product.with_stock (Product.stock (Product.with_stock (Product.stock p - a) p) - b)
    (Product.with_stock (Product.stock p - a) p)
  = Product.with_stock (Product.stock p - (a + b)) p.
Proof. unfold Product.with_stock; simpl. f_equal. ring. Qed.

Lemma demand_linked pid item :
  DocItem.id item ≠ "" → DocItem.id item = pid →
  demand pid item = DocItem.quantity item.
Proof. intros ??. unfold demand. by rewrite bool_decide_eq_true_2. Qed.

Lemma demand_other pid item :
  DocItem.id item = "" ∨ DocItem.id item ≠ pid → demand pid item = 0.
Proof.
  intros Hor. unfold demand. rewrite bool_decide_eq_false_2; [done|].
  intros [??]. by destruct Hor.
Qed.

Lemma sumOf_demand_single pid l1 item l2 :
  DocItem.id item ≠ "" → DocItem.id item = pid →
  Forall (λ i, DocItem.id i ≠ pid) (l1 ++ l2) →
  sumOf (demand pid) (l1 ++ item :: l2) = DocItem.quantity item.
Proof.
  intros Hne Hid [H1 H2]%Forall_app.
  assert (Hzero : ∀ l, Forall (λ i, DocItem.id i ≠ pid) l → sumOf (demand pid) l = 0).
  { induction 1 as [|i l Hi _ IH]; simpl; [done|].
    rewrite IH, demand_other by auto. ring. }
  rewrite sumOf_app; simpl.
  rewrite (Hzero l1), (Hzero l2), demand_linked by done. ring.
Qed.

Lemma deductItem_unlinked inv item :
  DocItem.id item = "" → deductItem inv item = inv.
Proof. intros Hid. unfold deductItem, truthy. by rewrite Hid. Qed.

Lemma deductItem_cons p inv item :
  DocItem.id item ≠ "" →
  deductItem (p :: inv) item
  = if decide (Product.id p = DocItem.id item)
    then Product.with_stock (Product.stock p - DocItem.quantity item) p :: inv
    else p :: deductItem inv item.
Proof.
  intros Hid. unfold deductItem, truthy.
  rewrite bool_decide_eq_true_2 by done. simpl.
  destruct (decide (Product.id p = DocItem.id item)); [done|].
  by destruct (list_find _ inv) as [[i q]|].
Qed.

Lemma deductItem_ids inv item :
  Product.id <$> deductItem inv item = Product.id <$> inv.
Proof.
  destruct (decide (DocItem.id item = "")) as [Hid|Hid].
  { by rewrite deductItem_unlinked. }
  induction inv as [|p inv IH].
  { unfold deductItem. by destruct (truthy _). }
  rewrite deductItem_cons by done. case_decide; [done|].
  by rewrite !fmap_cons, IH.
Qed.

Lemma deductStock_ids items inv :
  Product.id <$> deductStock items inv = Product.id <$> inv.
Proof.
  unfold deductStock. revert inv.
  induction items as [|item items IH]; intros inv; simpl; [done|].
  by rewrite IH, deductItem_ids.
Qed.

Lemma deductItem_lookup inv item i p :
  NoDup (Product.id <$> inv) → inv !! i = Some p →
  deductItem inv item !! i
  = Some (Product.with_stock (Product.stock p - demand (Product.id p) item) p).
Proof.
  destruct (decide (DocItem.id item = "")) as [Hid|Hid].
  { intros _ Hp. rewrite deductItem_unlinked, demand_other, with_stock_same; auto. }
  revert i. induction inv as [|q inv IH]; intros i Hnd Hp; [done|].
  rewrite fmap_cons, NoDup_cons in Hnd. destruct Hnd as [Hq Hnd].
  rewrite deductItem_cons by done.
  destruct (decide (Product.id q = DocItem.id item)) as [Hqi|Hqi];
    destruct i as [|i]; simpl in *.
  - injection Hp as <-. by rewrite demand_linked.
  - rewrite demand_other, with_stock_same; [done|]. right.
    intros Heq. apply Hq. rewrite Hqi, Heq.
    apply list_elem_of_fmap_2. by eapply list_elem_of_lookup_2.
  - injection Hp as <-. rewrite demand_other, with_stock_same; auto.
  - by apply IH.
Qed.

Lemma deductStock_lookup items inv i p :
  NoDup (Product.id <$> inv) → inv !! i = Some p →
  deductStock items inv !! i
  = Some (Product.with_stock
            (Product.stock p - sumOf (demand (Product.id p)) items) p).
Proof.
  unfold deductStock. revert inv p.
  induction items as [|item items IH]; intros inv p Hnd Hp; simpl.
  { by rewrite with_stock_same. }
  rewrite (IH _ _ ltac:(by rewrite deductItem_ids)
             (deductItem_lookup inv item i p Hnd Hp)).
  cbn [Product.id Product.with_stock]. by rewrite with_stock_twice.
Qed.

Lemma getInventory_saveProducts newInv ls :
  getInventory (saveProducts newInv ls)
  = fold_left (λ acc p, upsert Product.id p acc) newInv (getInventory ls).
Proof.
  unfold saveProducts. revert ls.
  induction newInv as [|p newInv IH]; intros ls; simpl; [done|].
  by rewrite IH.
Qed.

Lemma saveProducts_findBy newInv ls p :
  NoDup (Product.id <$> newInv) → p ∈ newInv →
  findBy Product.id (Product.id p) (getInventory (saveProducts newInv ls)) = Some p.
Proof.
  intros. rewrite getInventory_saveProducts. by apply upserts_findBy_in.
Qed.

(** C5: on the first finalization of a delivery note (the save goes
    through, the type is delivery, no number yet), with products identified
    by their ids, every product of the inventory keeps its place and loses
    the quantities of the rows linked to it, a single linked row taking off
    exactly its quantity, and the product is stored with its new stock.
    Saving a quote, or saving a document that already has a number, changes
    no stock, in memory or in storage.  For the delivery note with one row
    of 3 cables, the stock goes from 5 to 2 and a second save leaves it at
    2. *)
Theorem stock_deduction :
  (∀ s,
     truthy (Document.clientName (currentDoc s)) = true →
     Document.type (currentDoc s) = Some entrega →
     truthy (Document.number (currentDoc s)) = false →
     NoDup (Product.id <$> inventory s) →
     let s' := (handleSaveDocument s).1 in
     let items := Document.items (currentDoc s) in
     length (inventory s') = length (inventory s) ∧
     (∀ i p, inventory s !! i = Some p →
        let p' := Product.with_stock
                    (Product.stock p - sumOf (demand (Product.id p)) items) p in
        inventory s' !! i = Some p' ∧
        findBy Product.id (Product.id p) (getInventory (localStorage s'))
          = Some p') ∧
     (∀ l1 item l2 p, items = l1 ++ item :: l2 →
        DocItem.id item ≠ "" → Product.id p = DocItem.id item →
        Forall (λ i, DocItem.id i ≠ Product.id p) (l1 ++ l2) →
        sumOf (demand (Product.id p)) items = DocItem.quantity item)) ∧
  (∀ s,
     Document.type (currentDoc s) = Some presupuesto ∨
     truthy (Document.number (currentDoc s)) = true →
     inventory (handleSaveDocument s).1 = inventory s ∧
     getInventory (localStorage (handleSaveDocument s).1)
       = getInventory (localStorage s)) ∧
  (Product.stock <$> inventory deliveryState = [num 5; num 1] ∧
   Product.stock <$> inventory (handleSaveDocument deliveryState).1
     = [num 2; num 1] ∧
   Product.stock <$>
     getInventory (localStorage (handleSaveDocument deliveryState).1)
     = [num 2; num 1] ∧
   Product.stock <$>
     inventory (handleSaveDocument (handleSaveDocument deliveryState).1).1
     = [num 2; num 1]).
Proof.
  split; [|split].
  - intros s Hc Hty Hn Hnd s' items. subst s'.
    rewrite handleSaveDocument_new by done. cbv zeta.
    rewrite bool_decide_eq_true_2 by done. simpl. fold items.
    split_and!.
    + by rewrite <- !(length_fmap Product.id), deductStock_ids.
    + intros i p Hp.
      pose proof (deductStock_lookup items _ i p Hnd Hp) as Hp'.
      split; [done|].
      apply (saveProducts_findBy _ _ (Product.with_stock _ p)).
      * by rewrite deductStock_ids.
      * by eapply list_elem_of_lookup_2.
    + intros l1 item l2 p -> Hne Hid Hothers. by apply sumOf_demand_single.
  - intros s Hor.
    destruct (truthy (Document.clientName (currentDoc s))) eqn:Hc;
      [|by rewrite handleSaveDocument_blocked].
    destruct (truthy (Document.number (currentDoc s))) eqn:Hn;
      [by rewrite handleSaveDocument_numbered|].
    destruct Hor as [Hty|?]; [|done].
    rewrite handleSaveDocument_new by done. cbv zeta.
    rewrite bool_decide_eq_false_2 by (by rewrite Hty). done.
  - split_and!; cbn -[num]; repeat f_equal; qc_compute.
Qed.

Lemma stock_deduction_witness :
  truthy (Document.clientName (currentDoc deliveryState)) = true ∧
  Document.type (currentDoc deliveryState) = Some entrega ∧
  truthy (Document.number (currentDoc deliveryState)) = false ∧
  NoDup (Product.id <$> inventory deliveryState) ∧
  inventory deliveryState !! 0%nat = Some cable ∧
  inventory (handleSaveDocument deliveryState).1 !! 0%nat
  = Some (Product.with_stock
            (Product.stock cable
             - sumOf (demand (Product.id cable))
                 (Document.items (currentDoc deliveryState))) cable).
Proof.
  assert (Hnd : NoDup (Product.id <$> inventory deliveryState)).
  { refine (bool_decide_unpack _ _). by vm_compute. }
  do 3 (split; [reflexivity|]). split; [exact Hnd|]. split; [reflexivity|].
  exact (proj1 (proj1 (proj2 (proj1 stock_deduction deliveryState
           eq_refl eq_refl eq_refl Hnd)) 0%nat cable eq_refl)).
Defined.

(** C10: the deduction has no guard and is selective.  A row whose product
    id is found in the inventory replaces the first product with that id by
    the same product with stock minus the row's quantity, whatever the sign
    of the result (1 in stock and 3 delivered leave -2); a row with an empty
    product id, or with an id that no product carries, leaves the inventory
    as it is.  The first finalization of a delivery note runs this step over
    its rows in order. *)
Theorem deduction_unguarded :
  (∀ inv item i p,
     DocItem.id item ≠ "" →
     list_find (λ q, Product.id q = DocItem.id item) inv = Some (i, p) →
     deductItem inv item
     = <[i := Product.with_stock (Product.stock p - DocItem.quantity item) p]> inv) ∧
  (∀ inv item, DocItem.id item = "" → deductItem inv item = inv) ∧
  (∀ inv item,
     findBy Product.id (DocItem.id item) inv = None → deductItem inv item = inv) ∧
  (∀ s,
     truthy (Document.clientName (currentDoc s)) = true →
     Document.type (currentDoc s) = Some entrega →
     truthy (Document.number (currentDoc s)) = false →
     inventory (handleSaveDocument s).1
     = fold_left deductItem (Document.items (currentDoc s)) (inventory s)) ∧
  Product.stock <$> deductItem [cable; lamp] overdrawn = [num 5; num (-2)].
Proof.
  split_and!.
  - intros inv item i p Hid Hfind. unfold deductItem, truthy.
    by rewrite bool_decide_eq_true_2, Hfind.
  - apply deductItem_unlinked.
  - intros inv item Hnone. unfold deductItem, findBy in *.
    apply fmap_None in Hnone. rewrite Hnone. by destruct (truthy _).
  - intros s Hc Hty Hn. rewrite handleSaveDocument_new by done. cbv zeta.
    by rewrite bool_decide_eq_true_2.
  - cbn -[num]. repeat f_equal; qc_compute.
Qed.

Lemma deduction_unguarded_witness :
  DocItem.id overdrawn ≠ "" ∧
  list_find (λ q, Product.id q = DocItem.id overdrawn) [cable; lamp]
    = Some (1%nat, lamp) ∧
  deductItem [cable; lamp] overdrawn
  = <[1%nat := Product.with_stock
                 (Product.stock lamp - DocItem.quantity overdrawn) lamp]>
      [cable; lamp].
Proof.
  assert (Hid : DocItem.id overdrawn ≠ "") by discriminate.
  split; [exact Hid|]. split; [reflexivity|].
  exact (proj1 deduction_unguarded [cable; lamp] overdrawn 1%nat lamp Hid eq_refl).
Defined.

(** ** More on the storage service *)

Section MoreCollectionFacts.
Context {A K : Type} `{EqDecision K} (key : A → K).
Implicit Types (x y : A) (k : K) (l : list A).

Lemma remove_upsert x l :
  remove key (key x) (upsert key x l) = remove key (key x) l.
Proof.
  induction l as [|y l IH].
  - unfold upsert, remove; simpl. rewrite filter_cons_False; [done|]. by intros ?.
  - rewrite upsert_cons. unfold remove in *.
    destruct (decide (key y = key x)) as [Hy|Hy].
    + rewrite !filter_cons_False; [done|by intros ?..].
    + by rewrite !filter_cons_True, IH.
Qed.

Lemma findBy_remove k l : findBy key k (remove key k l) = None.
Proof.
  apply findBy_None. unfold remove. apply Forall_forall.
  by intros y [??]%list_elem_of_filter.
Qed.

Lemma findBy_remove_ne k k' l :
  k' ≠ k → findBy key k' (remove key k l) = findBy key k' l.
Proof.
  intros Hk. unfold remove. induction l as [|y l IH]; [done|].
  rewrite filter_cons. destruct (decide (key y ≠ k)) as [Hy|Hy].
  - rewrite !findBy_cons. by rewrite IH.
  - apply dec_stable in Hy. rewrite IH, findBy_cons.
    rewrite decide_False; [done|congruence].
Qed.

Lemma remove_idem k l : remove key k (remove key k l) = remove key k l.
Proof.
  apply remove_absent. unfold remove. apply Forall_forall.
  by intros y [??]%list_elem_of_filter.
Qed.

Lemma remove_comm k1 k2 l :
  remove key k1 (remove key k2 l) = remove key k2 (remove key k1 l).
Proof.
  unfold remove. induction l as [|y l IH]; [done|].
  rewrite !(filter_cons _ y).
  destruct (decide (key y ≠ k1)), (decide (key y ≠ k2));
    rewrite ?filter_cons_True, ?filter_cons_False by done; by rewrite ?IH.
Qed.

Lemma remove_NoDup k l : NoDup (key <$> l) → NoDup (key <$> remove key k l).
Proof.
  intros Hl. apply (sublist_NoDup _ (key <$> l)); [done|].
  apply fmap_sublist, sublist_filter.
Qed.
End MoreCollectionFacts.

(** X1: a settings object written by [saveSettings] is read back unchanged
    by [getSettings], a later write replaces an earlier one, and the three
    collections are not touched. *)
Theorem settings_roundtrip settings settings' ls :
  getSettings (saveSettings settings ls) = settings ∧
  getSettings (saveSettings settings' (saveSettings settings ls)) = settings' ∧
  getDocuments (saveSettings settings ls) = getDocuments ls ∧
  getInventory (saveSettings settings ls) = getInventory ls ∧
  getClients (saveSettings settings ls) = getClients ls.
Proof.
  split_and!; try done; unfold getSettings; simpl; apply spread_stringify.
Qed.



(** X3: a save keeps the stored ids in their order: an id that is already
    stored keeps its place and the list its length, a new id goes to the
    end; for the three collections. *)
Theorem save_keeps_order ls :
  (∀ doc,
     Document.id <$> getDocuments (saveDocument doc ls)
     = if decide (Document.id doc ∈ Document.id <$> getDocuments ls)
       then Document.id <$> getDocuments ls
       else (Document.id <$> getDocuments ls) ++ [Document.id doc]) ∧
  (∀ product,
     Product.id <$> getInventory (saveProduct product ls)
     = if decide (Product.id product ∈ Product.id <$> getInventory ls)
       then Product.id <$> getInventory ls
       else (Product.id <$> getInventory ls) ++ [Product.id product]) ∧
  (∀ client,
     Client.id <$> getClients (saveClient client ls)
     = if decide (Client.id client ∈ Client.id <$> getClients ls)
       then Client.id <$> getClients ls
       else (Client.id <$> getClients ls) ++ [Client.id client]).
Proof. split_and!; intros x; apply upsert_keys. Qed.

(** X4: when the stored ids of a collection are pairwise distinct, they
    still are after a save and after a delete; for the three collections. *)
Theorem ids_stay_unique ls :
  (NoDup (Document.id <$> getDocuments ls) →
     ∀ doc id,
       NoDup (Document.id <$> getDocuments (saveDocument doc ls)) ∧
       NoDup (Document.id <$> getDocuments (deleteDocument id ls))) ∧
  (NoDup (Product.id <$> getInventory ls) →
     ∀ product id,
       NoDup (Product.id <$> getInventory (saveProduct product ls)) ∧
       NoDup (Product.id <$> getInventory (deleteProduct id ls))) ∧
  (NoDup (Client.id <$> getClients ls) →
     ∀ client id,
       NoDup (Client.id <$> getClients (saveClient client ls)) ∧
       NoDup (Client.id <$> getClients (deleteClient id ls))).
Proof.
  split_and!; intros Hnd x id; split;
    first [by apply upsert_NoDup | by apply remove_NoDup].
Qed.

Lemma ids_stay_unique_witness :
  NoDup (Client.id <$> getClients twoClients) ∧
  NoDup (Client.id <$> getClients (saveClient clientAna twoClients)) ∧
  NoDup (Client.id <$> getClients (deleteClient "c-1" twoClients)).
Proof.
  assert (Hnd : NoDup (Client.id <$> getClients twoClients)).
  { refine (bool_decide_unpack _ _). by vm_compute. }
  split; [exact Hnd|].
  exact (proj2 (proj2 (ids_stay_unique twoClients)) Hnd clientAna "c-1").
Defined.

(** X5: saving the same entry twice in a row is the same as saving it
    once; for the three collections. *)
Theorem save_twice ls :
  (∀ doc, saveDocument doc (saveDocument doc ls) = saveDocument doc ls) ∧
  (∀ product, saveProduct product (saveProduct product ls) = saveProduct product ls) ∧
  (∀ client, saveClient client (saveClient client ls) = saveClient client ls).
Proof.
  split_and!; intros x.
  - unfold saveDocument at 1 3. unfold getDocuments at 1; simpl.
    by rewrite upsert_idem.
  - unfold saveProduct at 1 3. unfold getInventory at 1; simpl.
    by rewrite upsert_idem.
  - unfold saveClient at 1 3. unfold getClients at 1; simpl.
    by rewrite upsert_idem.
Qed.

(** X6: deleting an id right after saving an entry under it leaves the
    collection as if the id had been deleted without the save; for the
    three collections. *)
Theorem save_then_delete ls :
  (∀ doc id, Document.id doc = Some id →
     getDocuments (deleteDocument id (saveDocument doc ls))
     = getDocuments (deleteDocument id ls)) ∧
  (∀ product,
     getInventory (deleteProduct (Product.id product) (saveProduct product ls))
     = getInventory (deleteProduct (Product.id product) ls)) ∧
  (∀ client,
     getClients (deleteClient (Client.id client) (saveClient client ls))
     = getClients (deleteClient (Client.id client) ls)).
Proof.
  split_and!.
  - intros doc id Hid. unfold deleteDocument, saveDocument, getDocuments at 1 3; simpl.
    rewrite <- Hid. f_equal. apply remove_upsert.
  - intros x. unfold deleteProduct, saveProduct, getInventory at 1 3; simpl.
    f_equal. apply remove_upsert.
  - intros x. unfold deleteClient, saveClient, getClients at 1 3; simpl.
    f_equal. apply remove_upsert.
Qed.

Lemma save_then_delete_witness :
  Document.id storedQuote = Some "doc-1" ∧
  getDocuments (deleteDocument "doc-1" (saveDocument storedQuote emptyStorage))
  = getDocuments (deleteDocument "doc-1" emptyStorage).
Proof.
  split; [reflexivity|].
  exact (proj1 (save_then_delete emptyStorage) storedQuote "doc-1" eq_refl).
Defined.

(** X7: after a delete no entry is found under the deleted id, the lookup
    of every other id is as before, a second delete of the same id changes
    nothing, and two deletes can be done in either order; for the three
    collections. *)
Theorem delete_then_find ls id :
  (findBy Document.id (Some id) (getDocuments (deleteDocument id ls)) = None ∧
   (∀ k, k ≠ Some id →
      findBy Document.id k (getDocuments (deleteDocument id ls))
      = findBy Document.id k (getDocuments ls)) ∧
   deleteDocument id (deleteDocument id ls) = deleteDocument id ls ∧
   ∀ id', deleteDocument id (deleteDocument id' ls)
          = deleteDocument id' (deleteDocument id ls)) ∧
  (findBy Product.id id (getInventory (deleteProduct id ls)) = None ∧
   (∀ k, k ≠ id →
      findBy Product.id k (getInventory (deleteProduct id ls))
      = findBy Product.id k (getInventory ls)) ∧
   deleteProduct id (deleteProduct id ls) = deleteProduct id ls ∧
   ∀ id', deleteProduct id (deleteProduct id' ls)
          = deleteProduct id' (deleteProduct id ls)) ∧
  (findBy Client.id id (getClients (deleteClient id ls)) = None ∧
   (∀ k, k ≠ id →
      findBy Client.id k (getClients (deleteClient id ls))
      = findBy Client.id k (getClients ls)) ∧
   deleteClient id (deleteClient id ls) = deleteClient id ls ∧
   ∀ id', deleteClient id (deleteClient id' ls)
          = deleteClient id' (deleteClient id ls)).
Proof.
  split_and!;
    first
      [ apply findBy_remove
      | by intros k Hk; apply findBy_remove_ne
      | unfold deleteDocument, deleteProduct, deleteClient,
          getDocuments, getInventory, getClients; simpl;
        by rewrite remove_idem
      | intros id';
        unfold deleteDocument, deleteProduct, deleteClient,
          getDocuments, getInventory, getClients; simpl;
        by rewrite remove_comm ].
Qed.

Lemma delete_then_find_witness :
  "c-2" ≠ "c-1" ∧
  findBy Client.id "c-2" (getClients (deleteClient "c-1" twoClients))
  = findBy Client.id "c-2" (getClients twoClients).
Proof.
  assert (H : "c-2" ≠ "c-1") by discriminate.
  split; [exact H|].
  exact (proj1 (proj2 (proj2 (proj2 (delete_then_find twoClients "c-1"))))
           "c-2" H).
Defined.

(** ** More on document numbers *)






(** The decimal rendering of a positive number starts with a digit that is
    not 0. *)
Lemma pretty_N_go_head x s :
  (0 < x)%N → ∃ c rest, pretty_N_go x s = String c rest ∧ String c "" ≠ "0".
Proof.
  revert s. induction (N.lt_wf_0 x) as [x _ IH]; intros s Hx.
  rewrite pretty_N_go_step by done.
  destruct (N.eq_0_gt_0_cases (x `div` 10)) as [Hd|Hd].
  - rewrite Hd, pretty_N_go_0. eexists _, _; split; [done|].
    apply N.div_small_iff in Hd; [|done].
    rewrite N.mod_small by done.
    unfold pretty_N_char. repeat case_match; try done; lia.
  - apply IH; [by apply N.div_lt|done].
Qed.

Lemma pretty_plainNumeral (n : Z) : plainNumeral (pretty n).
Proof.
  destruct n as [|p|p]; unfold pretty, pretty_Z.
  - split; [done|]. intros rest Heq. cbv [String.append] in Heq.
    by injection Heq.
  - unfold pretty, pretty_positive, pretty, pretty_N.
    rewrite decide_False by done.
    destruct (pretty_N_go_head (N.pos p) "") as (c & rest & -> & Hc); [lia|].
    split; [done|]. intros rest' Heq. cbv [String.append] in Heq.
    injection Heq as -> _. done.
  - split; [done|]. intros rest Heq. cbv [String.append] in Heq.
    discriminate Heq.
Qed.

Lemma zeros_app_inj ka kb a b :
  plainNumeral a → plainNumeral b →
  repeat_string ka "0" +:+ a = repeat_string kb "0" +:+ b → a = b.
Proof.
  intros [Ha Ha0] [Hb Hb0]. revert kb.
  induction ka as [|ka IH]; intros [|kb]; simpl; intros Heq.
  - done.
  - pose proof (Ha0 _ Heq) as Hrest.
    destruct (repeat_string kb "0"), b; simplify_eq/=.
  - symmetry in Heq. pose proof (Hb0 _ Heq) as Hrest.
    destruct (repeat_string ka "0"), a; simplify_eq/=.
  - injection Heq as Heq. by eapply IH.
Qed.

Lemma formatNumber_inj p (n m : Z) :
  formatNumber p n = formatNumber p m → n = m.
Proof.
  unfold formatNumber. intros Heq%(inj (String.app p)).
  rewrite !padStart_zero in Heq.
  apply zeros_app_inj in Heq; [|apply pretty_plainNumeral..].
  by apply (inj pretty).
Qed.

(** X8: document numbers identify the counter they were made from: a quote
    and a delivery note never get the same number, and two documents of the
    same type get the same number only from the same counter value. *)
Theorem numbers_distinct d1 d2 (n m : Z) :
  isBudget d1 ≠ isBudget d2 ∨ n ≠ m →
  formatNumber (prefix d1) n ≠ formatNumber (prefix d2) m.
Proof.
  intros Hor Heq. unfold prefix in *.
  destruct (isBudget d1), (isBudget d2).
  - apply formatNumber_inj in Heq. by destruct Hor.
  - unfold formatNumber in Heq. cbv [String.append] in Heq. discriminate Heq.
  - unfold formatNumber in Heq. cbv [String.append] in Heq. discriminate Heq.
  - apply formatNumber_inj in Heq. by destruct Hor.
Qed.

Lemma numbers_distinct_witness :
  (isBudget quoteDraft ≠ isBudget quoteDraft ∨ 1%Z ≠ 2%Z) ∧
  formatNumber (prefix quoteDraft) 1 ≠ formatNumber (prefix quoteDraft) 2.
Proof.
  assert (H : isBudget quoteDraft ≠ isBudget quoteDraft ∨ 1%Z ≠ 2%Z)
    by (right; discriminate).
  split; [exact H|]. exact (numbers_distinct quoteDraft quoteDraft 1 2 H).
Defined.



(** ** More on the editor *)


Lemma withTotals_fields ni d :
  Document.items (withTotals ni d) = ni ∧
  Document.subtotal (withTotals ni d) = sumOf DocItem.total ni ∧
  Document.taxRate (withTotals ni d) = Document.taxRate d.
Proof.
  unfold withTotals; simpl. rewrite fold_left_sumOf. split_and!; [done| |done].
  ring.
Qed.









Lemma deductItem_ext inv i1 i2 :
  DocItem.id i1 = DocItem.id i2 → DocItem.quantity i1 = DocItem.quantity i2 →
  deductItem inv i1 = deductItem inv i2.
Proof. intros Hid Hq. unfold deductItem. by rewrite Hid, Hq. Qed.

Lemma deductStock_ext l1 l2 inv :
  Forall2 (λ i1 i2, DocItem.id i1 = DocItem.id i2
                    ∧ DocItem.quantity i1 = DocItem.quantity i2) l1 l2 →
  deductStock l1 inv = deductStock l2 inv.
Proof.
  unfold deductStock. intros Hl. revert inv.
  induction Hl as [|i1 i2 l1 l2 [Hid Hq] _ IH]; intros inv; simpl; [done|].
  by rewrite (deductItem_ext inv i1 i2), IH.
Qed.

Lemma deductItem_unmatched inv item :
  findBy Product.id (DocItem.id item) inv = None → deductItem inv item = inv.
Proof.
  intros Hnone. unfold deductItem, findBy in *.
  apply fmap_None in Hnone. rewrite Hnone. by destruct (truthy _).
Qed.

Lemma deductStock_unmatched items inv :
  Forall (λ i, findBy Product.id (DocItem.id i) inv = None) items →
  deductStock items inv = inv.
Proof.
  unfold deductStock. induction 1 as [|i items Hi _ IH]; simpl; [done|].
  by rewrite deductItem_unmatched.
Qed.

(** X13: typing into a row's description a text that names no product
    changes only the description of that row: the row keeps its product
    link, quantity, price and total, the other rows are untouched, and a
    delivery of the edited rows takes the same stock as a delivery of the
    rows before the edit. *)
Theorem unmatched_description_keeps_link inv idx val d :
  Forall (λ p, Product.description p ≠ val) inv →
  (idx < length (Document.items d))%nat →
  (∀ it, Document.items d !! idx = Some it →
     Document.items (changeDescription inv idx val d) !! idx
     = Some (DocItem.mk (DocItem.id it) (DocItem.rowId it) val (DocItem.unit it)
               (DocItem.quantity it) (DocItem.price it) (DocItem.total it))) ∧
  (∀ j, j ≠ idx →
     Document.items (changeDescription inv idx val d) !! j
     = Document.items d !! j) ∧
  (∀ stock,
     deductStock (Document.items (changeDescription inv idx val d)) stock
     = deductStock (Document.items d) stock).
Proof.
  intros Hnone Hidx. unfold changeDescription.
  rewrite (proj2 (list_find_None (λ p, Product.description p = val) inv) Hnone).
  match goal with |- context [withTotals ?ni d] =>
    destruct (withTotals_fields ni d) as (-> & _ & _) end.
  split_and!.
  - intros it Hit. by rewrite list_lookup_alter_eq, Hit.
  - intros j Hj. by apply list_lookup_alter_ne.
  - intros stock. apply deductStock_ext.
    generalize (Document.items d) idx. clear.
    intros l. induction l as [|i l IH]; intros [|idx]; simpl;
      [constructor|constructor| |].
    + constructor; [done|]. by apply Forall_Forall2_diag, Forall_true.
    + constructor; [done|]. apply IH.
Qed.

Lemma unmatched_description_keeps_link_witness :
  Forall (λ p, Product.description p ≠ "Cable especial")
    (inventory deliveryState) ∧
  (0 < length (Document.items deliveryNote))%nat ∧
  deductStock
    (Document.items
       (changeDescription (inventory deliveryState) 0 "Cable especial"
          deliveryNote))
    (inventory deliveryState)
  = deductStock (Document.items deliveryNote) (inventory deliveryState).
Proof.
  assert (Hnone : Forall (λ p, Product.description p ≠ "Cable especial")
                    (inventory deliveryState)).
  { repeat constructor; discriminate. }
  assert (Hidx : (0 < length (Document.items deliveryNote))%nat)
    by (simpl; lia).
  split; [exact Hnone|]. split; [exact Hidx|].
  exact (proj2 (proj2 (unmatched_description_keeps_link
                         (inventory deliveryState) 0 "Cable especial"
                         deliveryNote Hnone Hidx))
           (inventory deliveryState)).
Defined.

(** X14: deleting a product does not unlink the rows that point to it:
    after the delete no product is found under that id, memory and storage
    hold the same inventory, and a delivery of rows that are all linked to
    the deleted product takes no stock at all; the document in the editor
    and the documents in memory and in storage, with their rows, are left
    as they are. *)
Theorem deleted_product_rows s pid items :
  Forall (λ i, DocItem.id i = pid) items →
  findBy Product.id pid (inventory (removeProduct pid s)) = None ∧
  inventory (removeProduct pid s) = getInventory (localStorage (removeProduct pid s)) ∧
  deductStock items (inventory (removeProduct pid s))
    = inventory (removeProduct pid s) ∧
  currentDoc (removeProduct pid s) = currentDoc s ∧
  documents (removeProduct pid s) = documents s ∧
  getDocuments (localStorage (removeProduct pid s)) = getDocuments (localStorage s).
Proof.
  intros Hitems.
  assert (Hnone : findBy Product.id pid (inventory (removeProduct pid s)) = None).
  { unfold removeProduct; simpl. apply findBy_remove. }
  split_and!; [done|done| |done..].
  apply deductStock_unmatched. eapply Forall_impl; [exact Hitems|].
  by intros i ->.
Qed.

Lemma deleted_product_rows_witness :
  Forall (λ i, DocItem.id i = "p-2") [overdrawn] ∧
  deductStock [overdrawn] (inventory (removeProduct "p-2" freshState))
  = inventory (removeProduct "p-2" freshState).
Proof.
  assert (H : Forall (λ i, DocItem.id i = "p-2") [overdrawn])
    by (repeat constructor).
  split; [exact H|].
  exact (proj1 (proj2 (proj2
           (deleted_product_rows freshState "p-2" [overdrawn] H)))).
Defined.

(** ** More on saving a document *)

Section UpsertRuns.
Context {A K : Type} `{EqDecision K} (key : A → K).
Implicit Types (x y : A) (k : K) (l pre : list A).


Lemma upsert_fresh x l : key x ∉ key <$> l → upsert key x l = l ++ [x].
Proof.
  intros Hnotin. unfold upsert.
  rewrite (proj2 (list_find_None (λ z, key z = key x) l)); [done|].
  apply Forall_forall. intros z Hz Heq. apply Hnotin. rewrite <- Heq.
  by apply list_elem_of_fmap_2.
Qed.

Lemma upsert_app_notin x pre l :
  key x ∉ key <$> pre → upsert key x (pre ++ l) = pre ++ upsert key x l.
Proof.
  induction pre as [|y pre IH]; intros Hnotin; [done|].
  rewrite fmap_cons, not_elem_of_cons in Hnotin. destruct Hnotin as [Hy Hpre].
  simpl. rewrite upsert_cons, decide_False by done. by rewrite IH.
Qed.

(** Storing, one by one, entries that carry the stored ids in the stored
    order replaces the stored list by the new one. *)
Lemma upserts_same_keys xs pre l :
  key <$> l = key <$> xs → NoDup (key <$> pre ++ xs) →
  fold_left (λ acc x, upsert key x acc) xs (pre ++ l) = pre ++ xs.
Proof.
  revert pre l. induction xs as [|x xs IH]; intros pre l Hkeys Hnd.
  - by destruct l.
  - destruct l as [|y l]; [done|]. injection Hkeys as Hy Hkeys. simpl.
    assert (key x ∉ key <$> pre) as Hnotin.
    { rewrite fmap_app, fmap_cons in Hnd.
      apply NoDup_app in Hnd as (_ & Hnotin & _).
      intros Hin. apply (Hnotin _ Hin). left. }
    rewrite upsert_app_notin, upsert_cons, decide_True by done.
    replace (pre ++ x :: l) with ((pre ++ [x]) ++ l) by (by rewrite <- app_assoc).
    replace (pre ++ x :: xs) with ((pre ++ [x]) ++ xs) in *
      by (by rewrite <- app_assoc).
    by apply IH.
Qed.
End UpsertRuns.

Lemma handleSaveDocument_documents s :
  truthy (Document.clientName (currentDoc s)) = true →
  let s' := (handleSaveDocument s).1 in
  currentDoc s' = Document.finalized (Document.number (currentDoc s')) (currentDoc s) ∧
  getDocuments (localStorage s')
  = upsert Document.id (currentDoc s') (getDocuments (localStorage s)) ∧
  documents s' = getDocuments (localStorage s') ∧
  clients s' = clients s.
Proof.
  intros Hc. destruct (truthy (Document.number (currentDoc s))) eqn:Hn.
  - rewrite handleSaveDocument_numbered by done. simpl. done.
  - rewrite handleSaveDocument_new by done. simpl.
    case_bool_decide; simpl; [|done].
    unfold getDocuments.
    match goal with |- context [saveProducts ?inv ?ls] =>
      destruct (saveProducts_frame inv ls) as (_ & -> & _) end.
    done.
Qed.

(** X15: a save that passes validation changes nothing in the editor's
    document but its number and its status, which becomes final.  Storage
    then holds, under the id of the document, a final document with that
    number and with the type, date, client data, description and rows of
    the editor's document; the list in memory is the stored list, and the
    client directory is not touched.  (The comparison with the stored
    document is by field and leaves the tax amounts out: JSON stores a NaN
    as null.) *)
Theorem save_stores_editor_document s :
  truthy (Document.clientName (currentDoc s)) = true →
  let s' := (handleSaveDocument s).1 in
  currentDoc s' = Document.finalized (Document.number (currentDoc s')) (currentDoc s) ∧
  Document.status (currentDoc s') = Some final ∧
  truthy (Document.number (currentDoc s')) = true ∧
  (∃ stored,
     findBy Document.id (Document.id (currentDoc s)) (getDocuments (localStorage s'))
       = Some stored ∧
     Document.number stored = Document.number (currentDoc s') ∧
     Document.status stored = Some final ∧
     Document.type stored = Document.type (currentDoc s) ∧
     Document.date stored = Document.date (currentDoc s) ∧
     Document.clientName stored = Document.clientName (currentDoc s) ∧
     Document.clientRif stored = Document.clientRif (currentDoc s) ∧
     Document.clientAddress stored = Document.clientAddress (currentDoc s) ∧
     Document.clientPhone stored = Document.clientPhone (currentDoc s) ∧
     Document.description stored = Document.description (currentDoc s) ∧
     Document.items stored = Document.items (currentDoc s)) ∧
  documents s' = getDocuments (localStorage s') ∧
  clients s' = clients s ∧
  getClients (localStorage s') = getClients (localStorage s).
Proof.
  intros Hc s'.
  destruct (handleSaveDocument_documents s Hc) as (Hdoc & Hdocs & Hmem & Hcl).
  destruct (handleSaveDocument_final s Hc) as (_ & Hnum & Hst).
  fold s' in Hdoc, Hdocs, Hmem, Hcl, Hnum, Hst.
  split_and!; try done.
  - exists (currentDoc s'). split.
    + rewrite Hdocs.
      replace (Document.id (currentDoc s)) with (Document.id (currentDoc s'))
        by (by rewrite Hdoc).
      apply findBy_upsert_eq.
    + split; [done|]. split; [done|]. by rewrite Hdoc.
  - subst s'. destruct (truthy (Document.number (currentDoc s))) eqn:Hn.
    + rewrite handleSaveDocument_numbered by done. done.
    + rewrite handleSaveDocument_new by done. cbv zeta.
      case_bool_decide; [|done]. unfold getClients; simpl.
      match goal with |- context [saveProducts ?inv ?ls] =>
        destruct (saveProducts_frame inv ls) as (_ & _ & ->) end.
      done.
Qed.

Lemma save_stores_editor_document_witness :
  truthy (Document.clientName (currentDoc quoteState)) = true ∧
  Document.status (currentDoc (handleSaveDocument quoteState).1) = Some final ∧
  documents (handleSaveDocument quoteState).1
  = getDocuments (localStorage (handleSaveDocument quoteState).1).
Proof.
  split; [reflexivity|].
  pose proof (save_stores_editor_document quoteState eq_refl)
    as (_ & H2 & _ & _ & H5 & _).
  exact (conj H2 H5).
Defined.

(** X16: a save never stores two documents under one id.  The stored ids
    keep their order; the id of the saved document keeps its place when it
    was stored already and goes to the end when it is new; a blocked save
    leaves the list as it is.  Ids that were pairwise distinct stay so. *)
Theorem save_keeps_document_ids s :
  let ids := Document.id <$> getDocuments (localStorage s) in
  let ids' := Document.id <$> getDocuments (localStorage (handleSaveDocument s).1) in
  (truthy (Document.clientName (currentDoc s)) = true →
     ids' = if decide (Document.id (currentDoc s) ∈ ids) then ids
            else ids ++ [Document.id (currentDoc s)]) ∧
  (truthy (Document.clientName (currentDoc s)) = false → ids' = ids) ∧
  (NoDup ids → NoDup ids').
Proof.
  intros ids ids'.
  assert (Hok : truthy (Document.clientName (currentDoc s)) = true →
    ids' = Document.id <$> upsert Document.id
             (Document.finalized
                (Document.number (currentDoc (handleSaveDocument s).1))
                (currentDoc s))
             (getDocuments (localStorage s))).
  { intros Hc. subst ids'.
    destruct (handleSaveDocument_documents s Hc) as (Hdoc & -> & _).
    by rewrite <- Hdoc. }
  assert (Hblocked : truthy (Document.clientName (currentDoc s)) = false →
                     ids' = ids).
  { intros Hc. subst ids' ids. by rewrite handleSaveDocument_blocked. }
  split_and!; [|done|].
  - intros Hc. rewrite (Hok Hc). exact (upsert_keys Document.id _ _).
  - intros Hnd. destruct (truthy (Document.clientName (currentDoc s))) eqn:Hc.
    + rewrite (Hok eq_refl). by apply upsert_NoDup.
    + by rewrite (Hblocked eq_refl).
Qed.

Lemma save_keeps_document_ids_witness :
  truthy (Document.clientName (currentDoc quoteState)) = true ∧
  Document.id <$> getDocuments (localStorage (handleSaveDocument quoteState).1)
  = if decide (Document.id (currentDoc quoteState)
               ∈ Document.id <$> getDocuments (localStorage quoteState))
    then Document.id <$> getDocuments (localStorage quoteState)
    else (Document.id <$> getDocuments (localStorage quoteState))
         ++ [Document.id (currentDoc quoteState)].
Proof.
  split; [reflexivity|].
  exact (proj1 (save_keeps_document_ids quoteState) eq_refl).
Defined.

(** X17: when the inventory in memory is the stored one and product ids
    are pairwise distinct, both still hold after any [handleSaveDocument],
    stock deduction included: every product is stored as it is shown, and
    no product is added, dropped or moved. *)
Theorem inventory_stays_in_sync s :
  inventory s = getInventory (localStorage s) →
  NoDup (Product.id <$> inventory s) →
  inventory (handleSaveDocument s).1
    = getInventory (localStorage (handleSaveDocument s).1) ∧
  Product.id <$> inventory (handleSaveDocument s).1 = Product.id <$> inventory s ∧
  NoDup (Product.id <$> inventory (handleSaveDocument s).1).
Proof.
  intros Hsync Hnd.
  destruct (truthy (Document.clientName (currentDoc s))) eqn:Hc;
    [|by rewrite handleSaveDocument_blocked].
  destruct (truthy (Document.number (currentDoc s))) eqn:Hn;
    [by rewrite handleSaveDocument_numbered|].
  rewrite handleSaveDocument_new by done. cbv zeta.
  case_bool_decide; simpl; [|done].
  rewrite deductStock_ids. split_and!; [|done..].
  rewrite getInventory_saveProducts.
  change (getInventory (saveDocument _ (saveSettings _ (localStorage s))))
    with (getInventory (localStorage s)).
  rewrite <- Hsync. symmetry.
  apply (upserts_same_keys Product.id _ [] (inventory s)).
  - by rewrite deductStock_ids.
  - simpl. by rewrite deductStock_ids.
Qed.

Lemma inventory_stays_in_sync_witness :
  inventory deliveryState = getInventory (localStorage deliveryState) ∧
  NoDup (Product.id <$> inventory deliveryState) ∧
  inventory (handleSaveDocument deliveryState).1
    = getInventory (localStorage (handleSaveDocument deliveryState).1).
Proof.
  assert (Hnd : NoDup (Product.id <$> inventory deliveryState)).
  { refine (bool_decide_unpack _ _). by vm_compute. }
  split; [reflexivity|]. split; [exact Hnd|].
  exact (proj1 (inventory_stays_in_sync deliveryState eq_refl Hnd)).
Defined.

Lemma handleSaveDocument_settings s :
  settings (handleSaveDocument s).1 = settings s ∨
  (truthy (Document.number (currentDoc s)) = false ∧
   Document.number (currentDoc (handleSaveDocument s).1)
     = Some (formatNumber (prefix (currentDoc s))
               (nextNum (settings s) (currentDoc s))) ∧
   settings (handleSaveDocument s).1
     = withCounter (currentDoc s)
         (toDouble (nextNum (settings s) (currentDoc s) + 1)) (settings s)).
Proof.
  destruct (truthy (Document.clientName (currentDoc s))) eqn:Hc;
    [|left; by rewrite handleSaveDocument_blocked].
  destruct (truthy (Document.number (currentDoc s))) eqn:Hn;
    [left; by rewrite handleSaveDocument_numbered|right].
  rewrite handleSaveDocument_new by done. cbv zeta. by case_bool_decide.
Qed.

Lemma countersHaveRoom_nextNum k settings d :
  countersHaveRoom k settings →
  isSafeInteger (nextNum settings d) ∧
  isSafeInteger (nextNum settings d + Z.of_nat k).
Proof. intros (?&?&?&?). unfold nextNum. by destruct (isBudget d). Qed.

(** One save uses up at most one step of the room of the counters, and
    never lowers a counter. *)
Lemma handleSaveDocument_room k s :
  countersHaveRoom (S k) (settings s) →
  countersHaveRoom k (settings (handleSaveDocument s).1) ∧
  (∀ d, nextNum (settings s) d ≤ nextNum (settings (handleSaveDocument s).1) d)%Z ∧
  (CompanySettings.nextBudgetNumber (settings (handleSaveDocument s).1)
   + CompanySettings.nextDeliveryNumber (settings (handleSaveDocument s).1)
   ≤ CompanySettings.nextBudgetNumber (settings s)
     + CompanySettings.nextDeliveryNumber (settings s) + 1)%Z.
Proof.
  intros Hroom.
  destruct (countersHaveRoom_nextNum _ _ (currentDoc s) Hroom) as [Hsafe _].
  revert Hroom. unfold countersHaveRoom. rewrite !isSafeInteger_bounds.
  intros Hroom.
  destruct (handleSaveDocument_settings s) as [->|(_ & _ & ->)].
  - split; [lia|]. split; [|lia]. intros d. lia.
  - rewrite (toDouble_succ _ Hsafe).
    unfold withCounter, nextNum.
    destruct (isBudget (currentDoc s)); simpl;
      (split; [lia|]; split; [|lia]); intros d; destruct (isBudget d); lia.
Qed.

Lemma finalizeAll_cons d docs s :
  finalizeAll (d :: docs) s
  = (Document.number (currentDoc (handleSaveDocument (setCurrentDoc d s)).1)
       :: (finalizeAll docs (handleSaveDocument (setCurrentDoc d s)).1).1,
     (finalizeAll docs (handleSaveDocument (setCurrentDoc d s)).1).2).
Proof. simpl. by destruct (finalizeAll docs _). Qed.

Lemma finalizeAll_notYetIssued docs s :
  Forall (λ d, truthy (Document.clientName d) = true
               ∧ truthy (Document.number d) = false) docs →
  countersHaveRoom (length docs) (settings s) →
  Forall (notYetIssued (settings s)) (finalizeAll docs s).1.
Proof.
  intros Hdocs. revert s.
  induction Hdocs as [|d docs [Hc Hn] _ IH]; intros s Hroom; [constructor|].
  rewrite finalizeAll_cons. cbn [fst].
  destruct (handleSaveDocument_room (length docs) (setCurrentDoc d s) Hroom)
    as (Hroom' & Hmono & _).
  constructor.
  - exists d, (nextNum (settings s) d). split; [|lia].
    destruct (handleSaveDocument_settings (setCurrentDoc d s))
      as [_|(_ & Hnum & _)]; [|done].
    rewrite handleSaveDocument_new by done. cbv zeta. by case_bool_decide.
  - eapply Forall_impl; [by apply IH|]. intros x (d' & n & -> & Hle).
    exists d', n. split; [done|].
    etrans; [|exact Hle]. apply Hmono.
Qed.

(** X18: in a session that saves one new document after the other (each
    with a client name and without a number), starting from counters that
    can be advanced that many times within the safe integers, all the
    numbers handed out are different from each other. *)
Theorem session_numbers_distinct docs s :
  Forall (λ d, truthy (Document.clientName d) = true
               ∧ truthy (Document.number d) = false) docs →
  countersHaveRoom (length docs) (settings s) →
  NoDup (finalizeAll docs s).1.
Proof.
  intros Hdocs. revert s.
  induction Hdocs as [|d docs [Hc Hn] Hdocs IH]; intros s Hroom; [constructor|].
  rewrite finalizeAll_cons. cbn [fst].
  destruct (handleSaveDocument_room (length docs) (setCurrentDoc d s) Hroom)
    as (Hroom' & _ & _).
  destruct (countersHaveRoom_nextNum _ _ d Hroom) as [Hsafe _].
  apply NoDup_cons. split; [|by apply IH].
  set (s1 := (handleSaveDocument (setCurrentDoc d s)).1) in *.
  assert (Hs1 : Document.number (currentDoc s1)
                = Some (formatNumber (prefix d) (nextNum (settings s) d))
                ∧ nextNum (settings s1) d = (nextNum (settings s) d + 1)%Z).
  { subst s1. rewrite handleSaveDocument_new by done. cbv zeta.
    replace (currentDoc (setCurrentDoc d s)) with d by done.
    replace (settings (setCurrentDoc d s)) with (settings s) by done.
    rewrite (toDouble_succ _ Hsafe).
    case_bool_decide; simpl; by rewrite nextNum_withCounter. }
  destruct Hs1 as [Hnum Hnext]. rewrite Hnum. intros Hin.
  pose proof (finalizeAll_notYetIssued docs s1 Hdocs Hroom') as Hall.
  rewrite Forall_forall in Hall.
  destruct (Hall _ Hin) as (d' & n & Heq & Hle).
  injection Heq as Heq.
  assert (isBudget d = isBudget d' ∧ nextNum (settings s) d = n) as [Hty <-].
  { unfold prefix in Heq. destruct (isBudget d), (isBudget d');
      first [ by apply formatNumber_inj in Heq
            | unfold formatNumber in Heq; cbv [String.append] in Heq;
              discriminate Heq ]. }
  assert (nextNum (settings s1) d' = nextNum (settings s1) d) as Hsame.
  { unfold nextNum. by rewrite Hty. }
  lia.
Qed.

Lemma session_numbers_distinct_witness :
  Forall (λ d, truthy (Document.clientName d) = true
               ∧ truthy (Document.number d) = false)
    [currentDoc quoteState; secondQuote; deliveryNote] ∧
  countersHaveRoom 3 (settings freshState) ∧
  NoDup (finalizeAll [currentDoc quoteState; secondQuote; deliveryNote]
           freshState).1.
Proof.
  assert (H : Forall (λ d, truthy (Document.clientName d) = true
                           ∧ truthy (Document.number d) = false)
                [currentDoc quoteState; secondQuote; deliveryNote]).
  { repeat constructor. }
  assert (Hroom : countersHaveRoom 3 (settings freshState)).
  { repeat split; by vm_compute. }
  split; [exact H|]. split; [exact Hroom|].
  exact (session_numbers_distinct _ freshState H Hroom).
Defined.

Example session_numbers :
  (finalizeAll [currentDoc quoteState; secondQuote; deliveryNote] freshState).1
  = [Some "PRE-000001"; Some "PRE-000002"; Some "NE-000001"].
Proof. by vm_compute. Qed.

(** X19: over a session of saves, whatever the documents, starting from
    counters that can be advanced that many times within the safe
    integers, neither counter ever goes down, and the two counters together
    advance by at most one per save. *)
Theorem session_counters docs s :
  countersHaveRoom (length docs) (settings s) →
  (CompanySettings.nextBudgetNumber (settings s)
   ≤ CompanySettings.nextBudgetNumber (settings (finalizeAll docs s).2))%Z ∧
  (CompanySettings.nextDeliveryNumber (settings s)
   ≤ CompanySettings.nextDeliveryNumber (settings (finalizeAll docs s).2))%Z ∧
  (CompanySettings.nextBudgetNumber (settings (finalizeAll docs s).2)
   + CompanySettings.nextDeliveryNumber (settings (finalizeAll docs s).2)
   ≤ CompanySettings.nextBudgetNumber (settings s)
     + CompanySettings.nextDeliveryNumber (settings s) + Z.of_nat (length docs))%Z.
Proof.
  revert s. induction docs as [|d docs IH]; intros s Hroom; [simpl; lia|].
  rewrite finalizeAll_cons. cbn [fst snd length].
  destruct (handleSaveDocument_room (length docs) (setCurrentDoc d s) Hroom)
    as (Hroom' & Hmono & Hsum).
  specialize (IH (handleSaveDocument (setCurrentDoc d s)).1 Hroom').
  pose proof (Hmono (newDocument "" "" "" 0)) as Hb.
  pose proof (Hmono (Document.with_type entrega (newDocument "" "" "" 0))) as Hd.
  unfold nextNum in Hb, Hd. simpl in Hb, Hd, Hsum. lia.
Qed.

Lemma session_counters_witness :
  countersHaveRoom 3 (settings freshState) ∧
  (CompanySettings.nextBudgetNumber (settings freshState)
   ≤ CompanySettings.nextBudgetNumber
       (settings (finalizeAll [currentDoc quoteState; secondQuote; deliveryNote]
                    freshState).2))%Z.
Proof.
  assert (Hroom : countersHaveRoom 3 (settings freshState)).
  { repeat split; by vm_compute. }
  split; [exact Hroom|].
  exact (proj1 (session_counters
                  [currentDoc quoteState; secondQuote; deliveryNote]
                  freshState Hroom)).
Defined.

(** X20: saving a copy made by "Copiar" of a document with a client name,
    under an id that is not stored yet and with a counter that is a safe
    integer, treats it as a new document: it gets the next number of its
    type, the counter advances by 1, the copy is added at the end of the
    stored list and every stored document, the original included, stays as
    it was; a copied delivery note takes the stock of its rows again. *)
Theorem copy_then_save s doc uuid today :
  truthy (Document.clientName doc) = true →
  Some uuid ∉ (Document.id <$> getDocuments (localStorage s)) →
  isSafeInteger (nextNum (settings s) doc) →
  let s' := (handleSaveDocument (copyDocument uuid today doc s)).1 in
  Document.id (currentDoc s') = Some uuid ∧
  Document.number (currentDoc s')
    = Some (formatNumber (prefix doc) (nextNum (settings s) doc)) ∧
  nextNum (settings s') doc = (nextNum (settings s) doc + 1)%Z ∧
  getDocuments (localStorage s') = getDocuments (localStorage s) ++ [currentDoc s'] ∧
  (Document.type doc = Some entrega →
     inventory s' = deductStock (Document.items doc) (inventory s)) ∧
  (Document.type doc ≠ Some entrega → inventory s' = inventory s).
Proof.
  intros Hc Hfresh Hsafe s'. subst s'.
  set (sc := copyDocument uuid today doc s).
  assert (Hcc : truthy (Document.clientName (currentDoc sc)) = true) by done.
  assert (Hcn : truthy (Document.number (currentDoc sc)) = false) by done.
  destruct (handleSaveDocument_documents sc Hcc) as (Hdoc & Hdocs & _).
  assert (Hnew := handleSaveDocument_new sc Hcc Hcn).
  cbv zeta in Hnew, Hdoc, Hdocs.
  replace (prefix (currentDoc sc)) with (prefix doc) in Hnew by done.
  replace (nextNum (settings sc) (currentDoc sc))
    with (nextNum (settings s) doc) in Hnew by done.
  replace (withCounter (currentDoc sc)) with (withCounter doc) in Hnew by done.
  rewrite (toDouble_succ _ Hsafe) in Hnew.
  change (localStorage sc) with (localStorage s) in Hdocs.
  set (s' := (handleSaveDocument sc).1) in *.
  assert (Hid : Document.id (currentDoc s') = Some uuid) by (by rewrite Hdoc).
  split_and!.
  - done.
  - rewrite Hnew. by case_bool_decide.
  - rewrite Hnew. case_bool_decide; simpl; apply nextNum_withCounter.
  - rewrite Hdocs. apply upsert_fresh. by rewrite Hid.
  - intros Hty. rewrite Hnew.
    by rewrite bool_decide_eq_true_2.
  - intros Hty. rewrite Hnew.
    by rewrite bool_decide_eq_false_2.
Qed.

Lemma copy_then_save_witness :
  truthy (Document.clientName storedQuote) = true ∧
  (Some "doc-9" ∉ Document.id <$> getDocuments (localStorage savedQuoteState)) ∧
  isSafeInteger (nextNum (settings savedQuoteState) storedQuote) ∧
  getDocuments
    (localStorage
       (handleSaveDocument
          (copyDocument "doc-9" "03/02/2025" storedQuote savedQuoteState)).1)
  = getDocuments (localStorage savedQuoteState)
    ++ [currentDoc
          (handleSaveDocument
             (copyDocument "doc-9" "03/02/2025" storedQuote savedQuoteState)).1].
Proof.
  assert (Hfresh : Some "doc-9"
                   ∉ (Document.id <$> getDocuments (localStorage savedQuoteState))).
  { refine (bool_decide_unpack _ _). by vm_compute. }
  assert (Hsafe : isSafeInteger (nextNum (settings savedQuoteState) storedQuote)).
  { by vm_compute. }
  split; [reflexivity|]. split; [exact Hfresh|]. split; [exact Hsafe|].
  exact (proj1 (proj2 (proj2 (proj2
    (copy_then_save savedQuoteState storedQuote "doc-9" "03/02/2025"
       eq_refl Hfresh Hsafe))))).
Defined.



(** ** Dialogs and inputs of the editor *)



(** X23: whatever is typed into the client name input becomes the client
    name of the document, so an empty text makes the next save stop at the
    validation and any other text lets it pass.  A text that is the name of
    a client of the directory also copies the rif, address and phone of the
    first such client; any other text leaves those three fields as they
    were.  Number, type and rows are never touched. *)
Theorem client_name_input clients val d :
  Document.clientName (changeClientName clients val d) = Some val ∧
  truthy (Document.clientName (changeClientName clients val d))
    = bool_decide (val ≠ "") ∧
  (∀ s, val = "" →
     handleSaveDocument (setCurrentDoc (changeClientName clients val d) s)
     = (setCurrentDoc (changeClientName clients val d) s,
        "El cliente es obligatorio")) ∧
  (∀ i c, list_find (λ c, Client.name c = val) clients = Some (i, c) →
     Document.clientRif (changeClientName clients val d) = Client.rif c ∧
     Document.clientAddress (changeClientName clients val d) = Client.address c ∧
     Document.clientPhone (changeClientName clients val d) = Client.phone c) ∧
  (Forall (λ c, Client.name c ≠ val) clients →
     Document.clientRif (changeClientName clients val d) = Document.clientRif d ∧
     Document.clientAddress (changeClientName clients val d)
       = Document.clientAddress d ∧
     Document.clientPhone (changeClientName clients val d)
       = Document.clientPhone d) ∧
  Document.number (changeClientName clients val d) = Document.number d ∧
  Document.type (changeClientName clients val d) = Document.type d ∧
  Document.items (changeClientName clients val d) = Document.items d.
Proof.
  assert (Hname : Document.clientName (changeClientName clients val d) = Some val).
  { unfold changeClientName.
    destruct (list_find _ clients) as [[i c]|] eqn:Hfind; [|done].
    apply list_find_Some in Hfind as (_ & <- & _). done. }
  split_and!.
  - done.
  - by rewrite Hname.
  - intros s ->. apply handleSaveDocument_blocked. simpl. by rewrite Hname.
  - intros i c Hfind. unfold changeClientName. by rewrite Hfind.
  - intros Hnone. unfold changeClientName.
    by rewrite (proj2 (list_find_None (λ c, Client.name c = val) clients) Hnone).
  - unfold changeClientName. by destruct (list_find _ clients) as [[i c]|].
  - unfold changeClientName. by destruct (list_find _ clients) as [[i c]|].
  - unfold changeClientName. by destruct (list_find _ clients) as [[i c]|].
Qed.

Lemma client_name_input_witness :
  list_find (λ c, Client.name c = "Luis Mora") (getClients twoClients)
    = Some (1%nat, clientLuis) ∧
  Document.clientRif (changeClientName (getClients twoClients) "Luis Mora" quoteDraft)
    = Client.rif clientLuis.
Proof.
  split; [reflexivity|].
  exact (proj1 (proj1 (proj2 (proj2 (proj2
    (client_name_input (getClients twoClients) "Luis Mora" quoteDraft))))
    1%nat clientLuis eq_refl)).
Defined.

(** ** The dashboard *)

(** What one document does to the row of month [m]. *)
Lemma groupStep_lookup acc d m :
  groupStep acc d !! m
  = if decide (month d = m) then
      match acc !! m with
      | Some r =>
          Some (if bool_decide (Document.type d = Some presupuesto)
                then MonthRow.addPresupuesto (Document.total d) r
                else MonthRow.addEntrega (Document.total d) r)
      | None =>
          if decide (m ∈ Object_prototype) then None
          else Some (if bool_decide (Document.type d = Some presupuesto)
                     then MonthRow.mk m (0 + Document.total d) 0
                     else MonthRow.mk m 0 (0 + Document.total d))
      end
    else acc !! m.
Proof.
  unfold groupStep. destruct (decide (month d = m)) as [Hm|Hm]; [subst m|].
  - destruct (acc !! month d) as [r|] eqn:Hacc.
    + case_bool_decide; by rewrite lookup_alter_eq, Hacc.
    + destruct (decide (month d ∈ Object_prototype)) as [Hin|Hin].
      * rewrite (bool_decide_eq_true_2 (month d ∈ Object_prototype)) by done.
        case_bool_decide; by rewrite lookup_alter_eq, Hacc.
      * rewrite (bool_decide_eq_false_2 (month d ∈ Object_prototype)) by done.
        case_bool_decide; by rewrite lookup_alter_eq, lookup_insert_eq.
  - destruct (acc !! month d); [|case_bool_decide];
      case_bool_decide; by rewrite lookup_alter_ne, ?lookup_insert_ne by done.
Qed.

(** The row of month [m] after the documents [docs] are added to the rows
    [acc]: the sums go on from what the row holds, document by document. *)
Lemma grouped_lookup docs (acc : gmap string MonthRow.t) m :
  fold_left groupStep docs acc !! m
  = match acc !! m with
    | Some r =>
        Some (MonthRow.mk (MonthRow.name r)
                (fold_left (λ x d, x + Document.total d)
                   (filter (λ d, month d = m ∧ Document.type d = Some presupuesto)
                      docs)
                   (MonthRow.presupuestos r))
                (fold_left (λ x d, x + Document.total d)
                   (filter (λ d, month d = m ∧ Document.type d ≠ Some presupuesto)
                      docs)
                   (MonthRow.entregas r)))
    | None =>
        if decide (m ∈ month <$> docs ∧ m ∉ Object_prototype) then
          Some (MonthRow.mk m
                  (fold_left (λ x d, x + Document.total d)
                     (filter (λ d, month d = m
                                   ∧ Document.type d = Some presupuesto) docs)
                     0)
                  (fold_left (λ x d, x + Document.total d)
                     (filter (λ d, month d = m
                                   ∧ Document.type d ≠ Some presupuesto) docs)
                     0))
        else None
    end.
Proof.
  revert acc. induction docs as [|d docs IH]; intros acc.
  { cbn [fold_left]. destruct (acc !! m) as [[nm p e]|]; [done|].
    case_decide as H; [|done]. by destruct H as [?%elem_of_nil _]. }
  cbn [fold_left]. rewrite IH, groupStep_lookup. clear IH.
  rewrite !(filter_cons _ d), fmap_cons.
  destruct (decide (month d = m)) as [Hm|Hm].
  - (* the document belongs to month [m] *)
    destruct (acc !! m) as [[nm p e]|].
    + case_bool_decide as Hty;
        [ rewrite (decide_True (P := month d = m ∧ Document.type d = Some presupuesto)),
            (decide_False (P := month d = m ∧ Document.type d ≠ Some presupuesto))
            by tauto
        | rewrite (decide_False (P := month d = m ∧ Document.type d = Some presupuesto)),
            (decide_True (P := month d = m ∧ Document.type d ≠ Some presupuesto))
            by tauto ];
        done.
    + destruct (decide (m ∈ Object_prototype)) as [Hin|Hin].
      * rewrite !decide_False by tauto. done.
      * rewrite (decide_True (P := m ∈ month d :: (month <$> docs) ∧ _))
          by (split; [rewrite Hm; left|done]).
        case_bool_decide as Hty;
        [ rewrite (decide_True (P := month d = m ∧ Document.type d = Some presupuesto)),
            (decide_False (P := month d = m ∧ Document.type d ≠ Some presupuesto))
            by tauto
        | rewrite (decide_False (P := month d = m ∧ Document.type d = Some presupuesto)),
            (decide_True (P := month d = m ∧ Document.type d ≠ Some presupuesto))
            by tauto ];
        done.
  - (* another month: the row is not touched *)
    rewrite !(decide_False (P := month d = m ∧ _)) by tauto.
    destruct (acc !! m) as [r|]; [done|].
    destruct (decide (m ∈ month <$> docs ∧ m ∉ Object_prototype)) as [Hin|Hin].
    + rewrite decide_True; [done|]. destruct Hin as [H1 H2]. split; [by right|done].
    + rewrite decide_False; [done|].
      intros [[?|?]%elem_of_cons ?]; [congruence|tauto].
Qed.

(** X24: the documents with a type are counted once each on the dashboard,
    as a quote or as a delivery note, those without a type in neither
    count; total sales are the sum of the totals of all documents; the
    low-stock count is the number of products with fewer than 5 in
    stock. *)
Theorem stats_counts documents inventory :
  (Stats.budgetCount (stats documents inventory)
   + Stats.deliveryCount (stats documents inventory)
   + length (filter (λ d, Document.type d = None) documents)
   = length documents)%nat ∧
  Stats.totalSales (stats documents inventory) = sumOf Document.total documents ∧
  (Stats.lowStock (stats documents inventory)
   + length (filter (λ p, (num 5 ≤ Product.stock p)%Qc) inventory)
   = length inventory)%nat.
Proof.
  unfold stats; simpl. split_and!.
  - induction documents as [|d docs IH]; [done|].
    rewrite !filter_cons.
    destruct (Document.type d) as [[]|]; simpl in *; lia.
  - rewrite fold_left_sumOf. ring.
  - induction inventory as [|p inv IH]; [done|].
    rewrite !filter_cons.
    destruct (decide (Product.stock p < num 5)) as [Hlt|Hge].
    + rewrite decide_False by (by apply Qclt_not_le). simpl in *; lia.
    + rewrite decide_True by (by apply Qcnot_lt_le). simpl in *; lia.
Qed.

(** X25: the chart has a row for a month exactly when some document falls
    into it and the month is not a name that objects inherit (such as
    "constructor", for which the sums land on the inherited object and no
    row is made).  The row carries the month as its name, the totals of
    that month's quotes added up in the order of the documents, and
    likewise the totals of that month's other documents. *)
Theorem grouped_month documents m :
  grouped documents !! m
  = if decide (m ∈ month <$> documents ∧ m ∉ Object_prototype) then
      Some (MonthRow.mk m
              (fold_left (λ x d, x + Document.total d)
                 (filter (λ d, month d = m ∧ Document.type d = Some presupuesto)
                    documents)
                 0)
              (fold_left (λ x d, x + Document.total d)
                 (filter (λ d, month d = m ∧ Document.type d ≠ Some presupuesto)
                    documents)
                 0))
    else None.
Proof. unfold grouped. by rewrite grouped_lookup, lookup_empty. Qed.

(** A document whose date ends in "constructor" gets no row. *)
Example grouped_inherited :
  let doc := Document.with_clientName "Ana Perez"
               (newDocument "doc-7" "01/constructor" "09:30:00" (num 16)) in
  month doc = "constructor" ∧ grouped [doc] = ∅.
Proof.
  intros doc. split; [reflexivity|].
  apply map_eq; intros i. unfold grouped. rewrite grouped_lookup, !lookup_empty.
  case_decide as H; [|done]. destruct H as [H1 H2].
  apply list_elem_of_singleton in H1 as ->. destruct H2. by left.
Qed.

(** ** The preview scale *)

Lemma Math_min_le_l a b : Math_min a b ≤ a.
Proof.
  unfold Math_min. case_decide as H; [apply Qcle_refl|].
  by apply Qclt_le_weak, Qcnot_le_lt.
Qed.

Lemma Math_min_le_r a b : Math_min a b ≤ b.
Proof. unfold Math_min. case_decide; [done|apply Qcle_refl]. Qed.

Lemma Math_min_glb a b c : c ≤ a → c ≤ b → c ≤ Math_min a b.
Proof. unfold Math_min. by case_decide. Qed.

Lemma Math_max_le_l a b : a ≤ Math_max a b.
Proof. unfold Math_max. case_decide; [done|apply Qcle_refl]. Qed.

Lemma Math_max_le_r a b : b ≤ Math_max a b.
Proof.
  unfold Math_max. case_decide as H; [apply Qcle_refl|].
  by apply Qclt_le_weak, Qcnot_le_lt.
Qed.

Lemma Math_max_lub a b c : a ≤ c → b ≤ c → Math_max a b ≤ c.
Proof. unfold Math_max. by case_decide. Qed.

Lemma scale_constants : minScale ≤ 1 ∧ 1 ≤ maxScale ∧ 0 ≤ zoomStep.
Proof. split_and!; by vm_compute. Qed.

(** X27: the preview scale never leaves its range.  Whatever the width of
    the window, the fitted scale lies between 0.3 and 1; zooming in never
    lowers the scale and never passes 1.5, zooming out never raises it and
    never goes below 0.3; so a scale between 0.3 and 1.5 stays there under
    any number of zoom steps. *)
Theorem scale_in_range :
  (∀ width, minScale ≤ handleResize width ∧ handleResize width ≤ 1) ∧
  (∀ p, handleZoomIn p ≤ maxScale ∧ (p ≤ maxScale → p ≤ handleZoomIn p)) ∧
  (∀ p, minScale ≤ handleZoomOut p ∧ (minScale ≤ p → handleZoomOut p ≤ p)) ∧
  (∀ p, minScale ≤ p → p ≤ maxScale →
     (minScale ≤ handleZoomIn p ∧ handleZoomIn p ≤ maxScale) ∧
     (minScale ≤ handleZoomOut p ∧ handleZoomOut p ≤ maxScale)).
Proof.
  destruct scale_constants as (Hmin1 & H1max & Hstep).
  assert (Hup : ∀ p, p ≤ p + zoomStep).
  { intros p. rewrite <- (Qcplus_0_r p) at 1.
    by apply Qcplus_le_compat; [apply Qcle_refl|]. }
  assert (Hdown : ∀ p, p - zoomStep ≤ p).
  { intros p. rewrite <- (Qcplus_0_r p) at 2. unfold Qcminus.
    apply Qcplus_le_compat; [apply Qcle_refl|].
    change 0 with (- 0). by apply Qcopp_le_compat. }
  split_and!.
  - intros width. unfold handleResize. split.
    + apply Math_min_glb; [apply Math_max_le_r|done].
    + apply Math_min_le_r.
  - intros p. unfold handleZoomIn. split; [apply Math_min_le_r|].
    intros Hp. by apply Math_min_glb.
  - intros p. unfold handleZoomOut. split; [apply Math_max_le_r|].
    intros Hp. by apply Math_max_lub.
  - intros p Hlo Hhi. unfold handleZoomIn, handleZoomOut. split_and!.
    + apply Math_min_glb; [|by etrans].
      by etrans; [|apply Hup].
    + apply Math_min_le_r.
    + apply Math_max_le_r.
    + apply Math_max_lub; [|by etrans].
      by etrans; [apply Hdown|].
Qed.

Lemma scale_in_range_witness :
  minScale ≤ 1 ∧ 1 ≤ maxScale ∧
  minScale ≤ handleZoomIn 1 ∧ handleZoomIn 1 ≤ maxScale.
Proof.
  assert (H1 : minScale ≤ 1) by (by vm_compute).
  assert (H2 : 1 ≤ maxScale) by (by vm_compute).
  split; [exact H1|]. split; [exact H2|].
  exact (proj1 (proj2 (proj2 (proj2 scale_in_range)) 1 H1 H2)).
Defined.

(** ** Forms and delete buttons *)

(** X28: the product form and the client form store the entry under its own
    id when it has one and under the fresh id otherwise.  After the submit
    the entry is found under that id exactly as it was typed, every other
    id finds what it found in storage before, the list in memory is the
    stored list, and the number of entries is unchanged when the id was
    stored already and one more when it was not. *)
Theorem forms_store_entries s uuid :
  (∀ editingProduct,
     let id := if truthy (Some (Product.id editingProduct))
               then Product.id editingProduct else uuid in
     let s' := submitProduct uuid editingProduct s in
     inventory s' = getInventory (localStorage s') ∧
     findBy Product.id id (inventory s')
       = Some (Product.mk id (Product.code editingProduct)
                 (Product.description editingProduct)
                 (Product.price editingProduct) (Product.stock editingProduct)
                 (Product.unit editingProduct)) ∧
     (∀ k, k ≠ id →
        findBy Product.id k (inventory s')
        = findBy Product.id k (getInventory (localStorage s))) ∧
     length (inventory s')
       = (if decide (id ∈ Product.id <$> getInventory (localStorage s))
          then length (getInventory (localStorage s))
          else S (length (getInventory (localStorage s))))) ∧
  (∀ editingClient,
     let id := if truthy (Some (Client.id editingClient))
               then Client.id editingClient else uuid in
     let s' := submitClient uuid editingClient s in
     clients s' = getClients (localStorage s') ∧
     findBy Client.id id (clients s')
       = Some (Client.mk id (Client.name editingClient) (Client.rif editingClient)
                 (Client.address editingClient) (Client.phone editingClient)) ∧
     (∀ k, k ≠ id →
        findBy Client.id k (clients s')
        = findBy Client.id k (getClients (localStorage s))) ∧
     length (clients s')
       = (if decide (id ∈ Client.id <$> getClients (localStorage s))
          then length (getClients (localStorage s))
          else S (length (getClients (localStorage s))))).
Proof.
  split.
  - intros e id s'. subst s'. unfold submitProduct. fold id.
    cbn [inventory localStorage]. rewrite getInventory_saveProduct.
    set (prod := Product.mk id _ _ _ _ _).
    split_and!; [done| | |].
    + apply (findBy_upsert_eq Product.id prod).
    + intros k Hk. by apply (findBy_upsert_ne Product.id k prod).
    + rewrite <- !(length_fmap Product.id), (upsert_keys Product.id prod).
      change (Product.id prod) with id.
      case_decide; [done|]. rewrite length_app. simpl. lia.
  - intros e id s'. subst s'. unfold submitClient. fold id.
    cbn [clients localStorage].
    set (c := Client.mk id _ _ _ _).
    change (getClients (saveClient c (localStorage s)))
      with (upsert Client.id c (getClients (localStorage s))).
    split_and!; [done| | |].
    + apply (findBy_upsert_eq Client.id c).
    + intros k Hk. by apply (findBy_upsert_ne Client.id k c).
    + rewrite <- !(length_fmap Client.id), (upsert_keys Client.id c).
      change (Client.id c) with id.
      case_decide; [done|]. rewrite length_app. simpl. lia.
Qed.

Lemma forms_store_entries_witness :
  "p-2" ≠ "p-1" ∧
  findBy Product.id "p-2"
    (inventory (submitProduct "p-9" cable freshState))
  = findBy Product.id "p-2" (getInventory (localStorage freshState)).
Proof.
  assert (H : "p-2" ≠ "p-1") by discriminate.
  split; [exact H|].
  exact (proj1 (proj2 (proj2
    (proj1 (forms_store_entries freshState "p-9") cable))) "p-2" H).
Defined.

(** X29: deleting a delivery note that was just finalized gives nothing
    back: the document is gone from storage and from the list in memory,
    but the stock in memory stays deducted, the stored inventory is the one
    the save left, and the counter, a safe integer before the save, stays
    advanced by 1, in memory and in storage. *)
Theorem delete_after_delivery s uuid :
  truthy (Document.clientName (currentDoc s)) = true →
  Document.type (currentDoc s) = Some entrega →
  truthy (Document.number (currentDoc s)) = false →
  Document.id (currentDoc s) = Some uuid →
  isSafeInteger (CompanySettings.nextDeliveryNumber (settings s)) →
  let s1 := (handleSaveDocument s).1 in
  let s2 := removeDocument uuid s1 in
  findBy Document.id (Some uuid) (getDocuments (localStorage s2)) = None ∧
  documents s2 = getDocuments (localStorage s2) ∧
  getDocuments (localStorage s2) = getDocuments (deleteDocument uuid (localStorage s)) ∧
  inventory s2 = deductStock (Document.items (currentDoc s)) (inventory s) ∧
  getInventory (localStorage s2) = getInventory (localStorage s1) ∧
  CompanySettings.nextDeliveryNumber (settings s2)
    = (CompanySettings.nextDeliveryNumber (settings s) + 1)%Z ∧
  getSettings (localStorage s2) = settings s2.
Proof.
  intros Hc Hty Hn Hid Hsafe s1 s2.
  destruct (handleSaveDocument_documents s Hc) as (Hdoc & Hdocs & _).
  fold s1 in Hdoc, Hdocs.
  assert (Hs1 := handleSaveDocument_new s Hc Hn). fold s1 in Hs1.
  cbv zeta in Hs1. rewrite bool_decide_eq_true_2 in Hs1 by done.
  assert (Hid1 : Document.id (currentDoc s1) = Some uuid) by (by rewrite Hdoc).
  subst s2. unfold removeDocument. cbn [localStorage documents inventory settings].
  split_and!.
  - apply (findBy_remove Document.id).
  - done.
  - unfold deleteDocument at 1 2. unfold getDocuments at 1 3. simpl.
    rewrite Hdocs, <- Hid1. apply remove_upsert.
  - by rewrite Hs1.
  - done.
  - rewrite Hs1. simpl. unfold withCounter, nextNum, isBudget.
    rewrite Hty; simpl. by apply toDouble_succ.
  - rewrite Hs1. simpl. unfold getSettings. simpl.
    match goal with |- context [saveProducts ?inv ?ls] =>
      destruct (saveProducts_frame inv ls) as (-> & _ & _) end.
    apply spread_stringify.
Qed.

Lemma delete_after_delivery_witness :
  truthy (Document.clientName (currentDoc deliveryState)) = true ∧
  Document.type (currentDoc deliveryState) = Some entrega ∧
  truthy (Document.number (currentDoc deliveryState)) = false ∧
  Document.id (currentDoc deliveryState) = Some "doc-1" ∧
  isSafeInteger (CompanySettings.nextDeliveryNumber (settings deliveryState)) ∧
  inventory (removeDocument "doc-1" (handleSaveDocument deliveryState).1)
  = deductStock (Document.items (currentDoc deliveryState))
      (inventory deliveryState).
Proof.
  assert (Hsafe : isSafeInteger
                    (CompanySettings.nextDeliveryNumber (settings deliveryState))).
  { by vm_compute. }
  do 4 (split; [reflexivity|]). split; [exact Hsafe|].
  exact (proj1 (proj2 (proj2 (proj2
    (delete_after_delivery deliveryState "doc-1"
       eq_refl eq_refl eq_refl eq_refl Hsafe))))).
Defined.
